(** * Timetable editor: scheduling grid and read-only view

    A shallow embedding of the pure logic of two React components,

    - [src/components/ManualSchedulingGrid.tsx] (the editable weekly grid), and
    - [src/components/TimetableView.tsx] (the read-only rendering),

    followed by the properties established about them.  Component state
    ([useState]) is passed explicitly: an updater given to [setEntries]
    is a function from the previous entry list to the next one. *)

From Stdlib Require Import List String Ascii Bool Arith Lia.
Import ListNotations.
Open Scope string_scope.
Open Scope bool_scope.

Set Implicit Arguments.

(** ** JavaScript helpers *)

Module JS.

(** [x === s] where [x] may be [undefined] and [s] is a string. *)
Definition strictEq (x : option string) (s : string) : bool :=
  match x with
  | Some v => v =? s
  | None => false
  end.

(** Truthiness of an optional boolean field. *)
Definition truthy (b : option bool) : bool :=
  match b with
  | Some true => true
  | _ => false
  end.

(** Truthiness of an optional string: [undefined] and [''] are falsy. *)
Definition truthyStr (s : option string) : bool :=
  match s with
  | Some v => negb (v =? "")
  | None => false
  end.

(** [xs.includes(x)] on an array of strings. *)
Definition includes (xs : list string) (x : string) : bool :=
  existsb (fun y => y =? x) xs.

(** [s.split(sep)] for a one-character separator: the pieces between
    separators, always at least one piece. *)
Fixpoint split (sep : Ascii.ascii) (s : string) : list string :=
  match s with
  | EmptyString => [EmptyString]
  | String c rest =>
      if Ascii.eqb c sep then EmptyString :: split sep rest
      else match split sep rest with
           | piece :: pieces => String c piece :: pieces
           | [] => [String c EmptyString]
           end
  end.

(** [xs.filter(Boolean)] on optional strings: the truthy ones. *)
Fixpoint compact (xs : list (option string)) : list string :=
  match xs with
  | [] => []
  | x :: rest =>
      match x with
      | Some v => if truthyStr x then v :: compact rest else compact rest
      | None => compact rest
      end
  end.

(** [[...new Set(xs)]]: duplicates dropped, first occurrences kept in
    insertion order. *)
Fixpoint unique (seen xs : list string) : list string :=
  match xs with
  | [] => []
  | x :: rest =>
      if includes seen x then unique seen rest
      else x :: unique (x :: seen) rest
  end.

End JS.

(** ** Data model ([utils/types])

    The type declarations are imported by both components; the records
    below carry the fields the components read or write.  [Day],
    [TimeSlot], [YearType], [BranchType] and [FreeHourType] are string
    literal unions, hence strings at run time.  An optional field is an
    [option]; [None] is [undefined]. *)

Definition Day := string.
Definition TimeSlot := string.
Definition YearType := string.
Definition BranchType := string.
Definition FreeHourType := string.

Record TimetableEntry : Type := mkEntry {
  day : Day;
  timeSlot : TimeSlot;
  subjectName : option string;
  teacherName : option string;
  isLab : option bool;
  batchNumber : option string;
  isFree : option bool;
  freeType : option FreeHourType;
  customFreeType : option string;
  isBreak : option bool;
  isLunch : option bool;
  labGroupId : option string;
  isLabGroup : option bool
}.

Record SubjectTeacherPair : Type := mkPair {
  id : string;
  pairSubjectName : string;
  pairTeacherName : string;
  pairIsLab : option bool;
  pairBatchNumber : option string
}.

Record FreeHour : Type := mkFreeHour {
  type : FreeHourType;
  customType : option string
}.

Record DayOptions : Type := mkDayOptions {
  fourContinuousDays : bool;
  useCustomDays : bool;
  selectedDays : list Day
}.

Record FormData : Type := mkFormData {
  year : YearType;
  branch : BranchType;
  dayOptions : DayOptions
}.

Record Timetable : Type := mkTimetable {
  formData : FormData;
  entries : list TimetableEntry
}.

(** An object literal [{ day, timeSlot }] with every other field absent. *)
Definition bareEntry (d : Day) (s : TimeSlot) : TimetableEntry :=
  {| day := d; timeSlot := s;
     subjectName := None; teacherName := None; isLab := None;
     batchNumber := None; isFree := None; freeType := None;
     customFreeType := None; isBreak := None; isLunch := None;
     labGroupId := None; isLabGroup := None |}.

Definition weekDays : list Day :=
  ["Monday"; "Tuesday"; "Wednesday"; "Thursday"; "Friday"; "Saturday"].

Definition fourDays : list Day :=
  ["Monday"; "Tuesday"; "Wednesday"; "Thursday"].

Definition breakSlot : TimeSlot := "11:10-11:20".
Definition lunchSlot : TimeSlot := "1:00-2:00".

(** The predicate [entry.day === day && entry.timeSlot === timeSlot]
    used by every lookup of a cell. *)
Definition atCell (d : Day) (s : TimeSlot) (entry : TimetableEntry) : bool :=
  (day entry =? d) && (timeSlot entry =? s).

(** ** The editable grid ([ManualSchedulingGrid]) *)

Module Grid.

Record Props : Type := mkProps {
  subjectTeacherPairs : list SubjectTeacherPair;
  freeHours : list FreeHour;
  propDayOptions : DayOptions;
  propYear : YearType;
  propBranch : BranchType;
  existingEntries : list TimetableEntry
}.

(** What a call to [toast] displays. *)
Record Toast : Type := mkToast {
  title : string;
  description : string;
  variant : string
}.

Inductive ChangeType : Type := subject | free.

(** [days]: the columns of the grid. *)
Definition days (p : Props) : list Day :=
  if propYear p =? "4th Year" then
    if useCustomDays (propDayOptions p) then selectedDays (propDayOptions p)
    else if fourContinuousDays (propDayOptions p) then fourDays
    else weekDays
  else weekDays.

(** [timeSlots]: the seven teaching rows. *)
Definition timeSlots : list TimeSlot :=
  ["9:30-10:20"; "10:20-11:10"; "11:20-12:10"; "12:10-1:00";
   "2:00-2:50"; "2:50-3:40"; "3:40-4:30"].

Definition breakEntry (d : Day) : TimetableEntry :=
  {| day := d; timeSlot := breakSlot;
     subjectName := None; teacherName := None; isLab := None;
     batchNumber := None; isFree := None; freeType := None;
     customFreeType := None; isBreak := Some true; isLunch := None;
     labGroupId := None; isLabGroup := None |}.

Definition lunchEntry (d : Day) : TimetableEntry :=
  {| day := d; timeSlot := lunchSlot;
     subjectName := None; teacherName := None; isLab := None;
     batchNumber := None; isFree := None; freeType := None;
     customFreeType := None; isBreak := None; isLunch := Some true;
     labGroupId := None; isLabGroup := None |}.

(** [initialEntries.push(x)]. *)
Definition push (acc : list TimetableEntry) (x : TimetableEntry) :=
  (acc ++ [x])%list.

(** [found ? push(found) : push(fresh)]. *)
Definition pushFoundOr (acc : list TimetableEntry)
    (found : option TimetableEntry) (fresh : TimetableEntry) :=
  match found with
  | Some existing => push acc existing
  | None => push acc fresh
  end.

(** Body of the outer [days.forEach] when existing entries are
    reconciled; [acc] is [initialEntries] so far. *)
Definition reconcileDay (filteredEntries : list TimetableEntry)
    (acc : list TimetableEntry) (d : Day) : list TimetableEntry :=
  let acc1 :=
    fold_left
      (fun a s => pushFoundOr a (find (atCell d s) filteredEntries) (bareEntry d s))
      timeSlots acc in
  let existingBreak :=
    find (fun entry => atCell d breakSlot entry && JS.truthy (isBreak entry))
         filteredEntries in
  let acc2 := pushFoundOr acc1 existingBreak (breakEntry d) in
  let existingLunch :=
    find (fun entry => atCell d lunchSlot entry && JS.truthy (isLunch entry))
         filteredEntries in
  pushFoundOr acc2 existingLunch (lunchEntry d).

(** Body of the outer [days.forEach] for a blank grid. *)
Definition blankDay (acc : list TimetableEntry) (d : Day) : list TimetableEntry :=
  let acc1 := fold_left (fun a s => push a (bareEntry d s)) timeSlots acc in
  push (push acc1 (breakEntry d)) (lunchEntry d).

(** The initialising effect: the list handed to [setEntries]. *)
Definition initialEntries (p : Props) : list TimetableEntry :=
  match existingEntries p with
  | _ :: _ =>
      let filteredEntries :=
        filter (fun entry => JS.includes (days p) (day entry)) (existingEntries p) in
      fold_left (reconcileDay filteredEntries) (days p) []
  | [] =>
      fold_left blankDay (days p) []
  end.

(** [checkTeacherConflicts]; [allTimetables] is what [getTimetables()]
    returns from storage, [p] supplies [year] and [branch].  The loop
    skips a timetable of the same year and branch and returns at the
    first timetable with a matching entry. *)
Fixpoint scanTimetables (p : Props) (d : Day) (s : TimeSlot)
    (teacher : string) (allTimetables : list Timetable) : bool :=
  match allTimetables with
  | [] => false
  | timetable :: rest =>
      if (year (formData timetable) =? propYear p)
         && (branch (formData timetable) =? propBranch p)
      then scanTimetables p d s teacher rest
      else
        let hasConflict :=
          existsb (fun entry => (day entry =? d) && (timeSlot entry =? s)
                                && JS.strictEq (teacherName entry) teacher)
                  (entries timetable) in
        if hasConflict then true
        else scanTimetables p d s teacher rest
  end.

Definition checkTeacherConflicts (allTimetables : list Timetable) (p : Props)
    (d : Day) (s : TimeSlot) (teacher : string) : bool :=
  scanTimetables p d s teacher allTimetables.

Definition conflictToast (teacher : string) : Toast :=
  {| title := "Scheduling Conflict";
     description := teacher ++
       " already has a class scheduled at this time slot in another class.";
     variant := "destructive" |}.

(** [const [subjectId, teacherId] = value.split('|')]: first piece. *)
Definition subjectIdOf (value : string) : string :=
  hd EmptyString (JS.split "|"%char value).

(** The callback mapped over the entries by [handleCellChange]: the
    entry it returns and the toasts it raises. *)
Definition changeEntry (allTimetables : list Timetable) (p : Props)
    (d : Day) (s : TimeSlot) (value : string) (ty : ChangeType)
    (entry : TimetableEntry) : TimetableEntry * list Toast :=
  if atCell d s entry then
    match ty with
    | subject =>
        match find (fun s0 => id s0 =? subjectIdOf value) (subjectTeacherPairs p) with
        | Some subj =>
            if checkTeacherConflicts allTimetables p d s (pairTeacherName subj)
            then (entry, [conflictToast (pairTeacherName subj)])
            else
              ({| day := day entry; timeSlot := timeSlot entry;
                  subjectName := Some (pairSubjectName subj);
                  teacherName := Some (pairTeacherName subj);
                  isLab := pairIsLab subj;
                  batchNumber := pairBatchNumber subj;
                  isFree := Some false;
                  freeType := None;
                  customFreeType := customFreeType entry;
                  isBreak := isBreak entry; isLunch := isLunch entry;
                  labGroupId := labGroupId entry;
                  isLabGroup := isLabGroup entry |}, [])
        | None => (entry, [])
        end
    | free =>
        ({| day := day entry; timeSlot := timeSlot entry;
            subjectName := None;
            teacherName := None;
            isLab := Some false;
            batchNumber := None;
            isFree := Some true;
            freeType := Some value;
            customFreeType := customFreeType entry;
            isBreak := isBreak entry; isLunch := isLunch entry;
            labGroupId := labGroupId entry;
            isLabGroup := isLabGroup entry |}, [])
    end
  else (entry, []).

(** [handleCellChange]: the updater passed to [setEntries], applied to
    [prevEntries]; the toasts raised along the way are collected. *)
Definition handleCellChange (allTimetables : list Timetable) (p : Props)
    (d : Day) (s : TimeSlot) (value : string) (ty : ChangeType)
    (prevEntries : list TimetableEntry) : list TimetableEntry * list Toast :=
  let results := map (changeEntry allTimetables p d s value ty) prevEntries in
  (map fst results, List.concat (map snd results)).

(** The object literal built by [clearCell]. *)
Definition clearedEntry (d : Day) (s : TimeSlot) : TimetableEntry :=
  {| day := d; timeSlot := s;
     subjectName := None; teacherName := None; isLab := Some false;
     batchNumber := None; isFree := Some false; freeType := None;
     customFreeType := None; isBreak := None; isLunch := None;
     labGroupId := None; isLabGroup := None |}.

(** [clearCell]: the updater passed to [setEntries]. *)
Definition clearCell (d : Day) (s : TimeSlot)
    (prevEntries : list TimetableEntry) : list TimetableEntry :=
  map (fun entry => if atCell d s entry then clearedEntry d s else entry)
      prevEntries.

(** The props with [existingEntries] replaced: what the component
    receives when a saved entry list is handed back to it. *)
Definition withExisting (p : Props) (saved : list TimetableEntry) : Props :=
  {| subjectTeacherPairs := subjectTeacherPairs p;
     freeHours := freeHours p;
     propDayOptions := propDayOptions p;
     propYear := propYear p;
     propBranch := propBranch p;
     existingEntries := saved |}.

(** The saving effect: [onSave(entries)] is called only when the entry
    list is non-empty; [None] stands for no call. *)
Definition saveEffect (current : list TimetableEntry)
    : option (list TimetableEntry) :=
  match current with
  | _ :: _ => Some current
  | [] => None
  end.

(** One [SelectItem] of a drop-down. *)
Record SelectItem : Type := mkItem {
  itemValue : string;
  itemLabel : string;
  itemDisabled : bool
}.

(** The value of a subject item: [`${pair.id}|${pair.teacherName}`]. *)
Definition optionValue (subj : SubjectTeacherPair) : string :=
  id subj ++ "|" ++ pairTeacherName subj.

(** The items of the subject drop-down. *)
Definition subjectItems (p : Props) : list SelectItem :=
  match subjectTeacherPairs p with
  | [] =>
      [{| itemValue := "no-subjects-available";
          itemLabel := "No subjects available";
          itemDisabled := true |}]
  | _ :: _ =>
      map (fun subj =>
             {| itemValue := optionValue subj;
                itemLabel := pairSubjectName subj ++ " - " ++ pairTeacherName subj
                             ++ " " ++ (if JS.truthy (pairIsLab subj)
                                        then "(Lab)" else "");
                itemDisabled := false |})
          (subjectTeacherPairs p)
  end.

(** The text of a free-hour item, used as its value and its label. *)
Definition freeHourText (f : FreeHour) : string :=
  match customType f with
  | Some custom =>
      if (type f =? "Others") && JS.truthyStr (customType f) then custom
      else type f
  | None => type f
  end.

(** The items of the free-hour drop-down. *)
Definition freeItems (p : Props) : list SelectItem :=
  match freeHours p with
  | [] =>
      [{| itemValue := "no-free-hours-available";
          itemLabel := "No free hours available";
          itemDisabled := true |}]
  | _ :: _ =>
      map (fun f =>
             {| itemValue := freeHourText f;
                itemLabel := freeHourText f;
                itemDisabled := false |})
          (freeHours p)
  end.

(** What a cell of the grid shows:
    - [NoCell]: nothing ([null]);
    - [BreakLabel], [LunchLabel]: the fixed labels, with no control;
    - [SubjectCard]: subject name, teacher name, lab styling, the batch
      line when there is one, and a Clear button;
    - [FreeCard]: the free-hour type and a Clear button;
    - [Editor]: the two drop-downs and a Clear button. *)
Inductive GridCell : Type :=
| NoCell
| BreakLabel
| LunchLabel
| SubjectCard (name : option string) (teacher : option string)
    (labStyle : bool) (batch : option string)
| FreeCard (freeText : option FreeHourType)
| Editor (subjects : list SelectItem) (frees : list SelectItem).

(** [getCellContent]; [current] is the [entries] state. *)
Definition getCellContent (p : Props) (current : list TimetableEntry)
    (d : Day) (s : TimeSlot) : GridCell :=
  match find (atCell d s) current with
  | None => NoCell
  | Some entry =>
      if JS.truthy (isBreak entry) then BreakLabel
      else if JS.truthy (isLunch entry) then LunchLabel
      else if JS.truthyStr (subjectName entry) then
        SubjectCard (subjectName entry) (teacherName entry)
          (JS.truthy (isLab entry))
          (if JS.truthy (isLab entry) && JS.truthyStr (batchNumber entry)
           then batchNumber entry else None)
      else if JS.truthy (isFree entry) && JS.truthyStr (freeType entry) then
        FreeCard (freeType entry)
      else Editor (subjectItems p) (freeItems p)
  end.

(** What the user can do in a cell: pick an enabled item of either
    drop-down, or press Clear. *)
Inductive Action : Type :=
| SelectSubject (value : string)
| SelectFree (value : string)
| PressClear.

Definition enabledValues (items : list SelectItem) : list string :=
  map itemValue (filter (fun item => negb (itemDisabled item)) items).

(** The controls a cell carries. *)
Definition actions (c : GridCell) : list Action :=
  match c with
  | SubjectCard _ _ _ _ => [PressClear]
  | FreeCard _ => [PressClear]
  | Editor subjects frees =>
      (map SelectSubject (enabledValues subjects)
         ++ map SelectFree (enabledValues frees)
         ++ [PressClear])%list
  | _ => []
  end.

(** The handler wired to a control of the cell at ([d], [s]): the
    entry list after the state update. *)
Definition dispatch (allTimetables : list Timetable) (p : Props)
    (d : Day) (s : TimeSlot) (a : Action)
    (prevEntries : list TimetableEntry) : list TimetableEntry :=
  match a with
  | SelectSubject value =>
      fst (handleCellChange allTimetables p d s value subject prevEntries)
  | SelectFree value =>
      fst (handleCellChange allTimetables p d s value free prevEntries)
  | PressClear => clearCell d s prevEntries
  end.

End Grid.

(** ** The read-only view ([TimetableView]) *)

Module View.

Record Props : Type := mkProps {
  timetable : Timetable;
  facultyFilter : option string;
  printMode : option bool
}.

Definition days : list Day := weekDays.

(** [timeSlots]: the nine rows, break and lunch included. *)
Definition timeSlots : list TimeSlot :=
  ["9:30-10:20"; "10:20-11:10"; "11:10-11:20"; "11:20-12:10"; "12:10-1:00";
   "1:00-2:00"; "2:00-2:50"; "2:50-3:40"; "3:40-4:30"].

Definition visibleDays (p : Props) : list Day :=
  let fd := formData (timetable p) in
  if year fd =? "4th Year" then
    if useCustomDays (dayOptions fd) then selectedDays (dayOptions fd)
    else if fourContinuousDays (dayOptions fd) then fourDays
    else days
  else days.

(** [entries]: the timetable's entries, restricted to one teacher when
    a (truthy) faculty filter is given. *)
Definition viewEntries (p : Props) : list TimetableEntry :=
  match facultyFilter p with
  | Some f =>
      if JS.truthyStr (Some f)
      then filter (fun entry => JS.strictEq (teacherName entry) f)
                  (entries (timetable p))
      else entries (timetable p)
  | None => entries (timetable p)
  end.

Definition getEntry (p : Props) (d : Day) (s : TimeSlot) : option TimetableEntry :=
  find (atCell d s) (viewEntries p).

Definition getLabEntries (p : Props) (groupId : string) : list TimetableEntry :=
  filter (fun entry => JS.strictEq (labGroupId entry) groupId) (viewEntries p).

Definition morningLab : TimeSlot := "9:30-1:00".
Definition afternoonLab : TimeSlot := "2:00-4:30".

Definition morningSlots : list TimeSlot :=
  ["9:30-10:20"; "10:20-11:10"; "11:20-12:10"; "12:10-1:00"].

Definition afternoonSlots : list TimeSlot :=
  ["2:00-2:50"; "2:50-3:40"; "3:40-4:30"].

(** The filter predicate of [getLabsForTimeSlot]. *)
Definition spansSlot (d : Day) (s : TimeSlot) (entry : TimetableEntry) : bool :=
  (day entry =? d)
  && ((timeSlot entry =? morningLab) || (timeSlot entry =? afternoonLab))
  && (JS.truthy (isLab entry) || JS.truthy (isLabGroup entry))
  && (((timeSlot entry =? morningLab) && JS.includes morningSlots s)
      || ((timeSlot entry =? afternoonLab) && JS.includes afternoonSlots s)).

Definition getLabsForTimeSlot (p : Props) (d : Day) (s : TimeSlot)
    : list TimetableEntry :=
  filter (spansSlot d s) (viewEntries p).

(** What a cell shows.  A lab entry is displayed with its subject
    name, its teachers and its batch number, so a cell is described
    by the entries it lays out:
    - [Break], [Lunch]: the fixed labels;
    - [LabRotation groups]: one fragment per lab group id, holding
      the entries of that group;
    - [LabList labs]: the individual lab entries of the slot;
    - [FreePeriod label]: a free period and the text shown;
    - [SubjectCell entry]: a regular subject;
    - [Null]: an empty cell. *)
Inductive CellContent : Type :=
| Break
| Lunch
| LabRotation (groups : list (string * list TimetableEntry))
| LabList (labs : list TimetableEntry)
| FreePeriod (label : option string)
| SubjectCell (entry : TimetableEntry)
| Null.

(** [labGroupIds]: the distinct truthy group ids of the slot's labs. *)
Definition labGroupIds (labEntries : list TimetableEntry) : list string :=
  JS.unique [] (JS.compact (map labGroupId labEntries)).

Definition renderCellContent (p : Props) (d : Day) (s : TimeSlot) : CellContent :=
  if s =? breakSlot then Break
  else if s =? lunchSlot then Lunch
  else
    let labEntries := getLabsForTimeSlot p d s in
    match labEntries with
    | _ :: _ =>
        match labGroupIds labEntries with
        | _ :: _ =>
            LabRotation
              (map (fun groupId => (groupId, getLabEntries p groupId))
                   (labGroupIds labEntries))
        | [] => LabList labEntries
        end
    | [] =>
        match getEntry p d s with
        | None => Null
        | Some entry =>
            if JS.truthy (isFree entry) then
              FreePeriod
                (if JS.strictEq (freeType entry) "Others"
                    && JS.truthyStr (customFreeType entry)
                 then customFreeType entry
                 else freeType entry)
            else if JS.truthyStr (subjectName entry) then SubjectCell entry
            else Null
        end
    end.

(** The entries laid out in a cell. *)
Definition shownEntries (c : CellContent) : list TimetableEntry :=
  match c with
  | LabRotation groups => List.concat (map snd groups)
  | LabList labs => labs
  | SubjectCell entry => [entry]
  | _ => []
  end.

End View.

(** ** Vocabulary of the properties *)

(** The teacher [teacher] is booked at ([d], [s]) in a stored timetable
    that is not the one being edited (same year and same branch). *)
Definition BookedElsewhere (allTimetables : list Timetable) (p : Grid.Props)
    (d : Day) (s : TimeSlot) (teacher : string) : Prop :=
  exists timetable,
    In timetable allTimetables
    /\ ~ (year (formData timetable) = Grid.propYear p
          /\ branch (formData timetable) = Grid.propBranch p)
    /\ exists entry,
         In entry (entries timetable)
         /\ day entry = d /\ timeSlot entry = s
         /\ teacherName entry = Some teacher.

(** The visible days as the rule states them, given a year and the day
    options. *)
Inductive VisibleDays (y : YearType) (o : DayOptions) : list Day -> Prop :=
| VisibleOtherYear :
    y <> "4th Year" ->
    VisibleDays y o
      ["Monday"; "Tuesday"; "Wednesday"; "Thursday"; "Friday"; "Saturday"]
| VisibleCustom :
    y = "4th Year" -> useCustomDays o = true ->
    VisibleDays y o (selectedDays o)
| VisibleFour :
    y = "4th Year" -> useCustomDays o = false -> fourContinuousDays o = true ->
    VisibleDays y o ["Monday"; "Tuesday"; "Wednesday"; "Thursday"]
| VisibleAll :
    y = "4th Year" -> useCustomDays o = false -> fourContinuousDays o = false ->
    VisibleDays y o
      ["Monday"; "Tuesday"; "Wednesday"; "Thursday"; "Friday"; "Saturday"].

(** The nine rows of the grid: teaching slots, break, lunch. *)
Definition gridSlots : list TimeSlot :=
  (Grid.timeSlots ++ [breakSlot; lunchSlot])%list.

(** Number of entries of [l] sitting at cell ([d], [s]). *)
Definition cellCount (d : Day) (s : TimeSlot) (l : list TimetableEntry) : nat :=
  List.length (filter (atCell d s) l).

(** One entry per (day, time slot) pair: every cell of the grid spanned
    by [ds] holds exactly one entry, and no pair holds two. *)
Definition OneEntryPerCell (ds : list Day) (l : list TimetableEntry) : Prop :=
  forall d s,
    cellCount d s l <= 1
    /\ (In d ds -> In s gridSlots -> cellCount d s l = 1).

(** Lab entries sharing a group identifier render together: whenever a
    lab of group [g] spans the slot being rendered, every entry of
    group [g] is laid out in the cell. *)
Definition GroupsRenderTogether (p : View.Props) : Prop :=
  forall d s g spanning member,
    In spanning (View.getLabsForTimeSlot p d s) ->
    labGroupId spanning = Some g ->
    In member (View.viewEntries p) ->
    labGroupId member = Some g ->
    In member (View.shownEntries (View.renderCellContent p d s)).

(** The entry reconciliation keeps for a teaching cell: the first
    existing entry at that cell, else a fresh one. *)
Definition keptAt (existing : list TimetableEntry) (d : Day) (s : TimeSlot)
    : TimetableEntry :=
  match find (atCell d s) existing with
  | Some entry => entry
  | None => bareEntry d s
  end.

Definition keptBreak (existing : list TimetableEntry) (d : Day) : TimetableEntry :=
  match find (fun entry => atCell d breakSlot entry && JS.truthy (isBreak entry))
             existing with
  | Some entry => entry
  | None => Grid.breakEntry d
  end.

Definition keptLunch (existing : list TimetableEntry) (d : Day) : TimetableEntry :=
  match find (fun entry => atCell d lunchSlot entry && JS.truthy (isLunch entry))
             existing with
  | Some entry => entry
  | None => Grid.lunchEntry d
  end.

(** The rows of one day after reconciliation, in order. *)
Definition dayBlock (existing : list TimetableEntry) (d : Day)
    : list TimetableEntry :=
  (map (keptAt existing d) Grid.timeSlots
     ++ [keptBreak existing d; keptLunch existing d])%list.

(** The shape of a grid state over the days [ds]: day after day, the
    seven teaching entries in row order, then an entry flagged as break
    and one flagged as lunch, each sitting at its own cell. *)
Definition GridShaped (ds : list Day) (l : list TimetableEntry) : Prop :=
  exists (teach : Day -> TimeSlot -> TimetableEntry)
         (brk lun : Day -> TimetableEntry),
    l = flat_map (fun d => map (teach d) Grid.timeSlots ++ [brk d; lun d])%list ds
    /\ (forall d s, day (teach d s) = d /\ timeSlot (teach d s) = s)
    /\ (forall d, day (brk d) = d /\ timeSlot (brk d) = breakSlot
                  /\ isBreak (brk d) = Some true)
    /\ (forall d, day (lun d) = d /\ timeSlot (lun d) = lunchSlot
                  /\ isLunch (lun d) = Some true).

(** Whether the character [c] occurs in [s]. *)
Fixpoint hasChar (c : ascii) (s : string) : bool :=
  match s with
  | EmptyString => false
  | String c' rest => Ascii.eqb c' c || hasChar c rest
  end.

(** The callback that a control of the cell at ([d], [s]) maps over the
    entries. *)
Definition stepEntry (allTimetables : list Timetable) (p : Grid.Props)
    (d : Day) (s : TimeSlot) (a : Grid.Action) (entry : TimetableEntry)
    : TimetableEntry :=
  match a with
  | Grid.SelectSubject value =>
      fst (Grid.changeEntry allTimetables p d s value Grid.subject entry)
  | Grid.SelectFree value =>
      fst (Grid.changeEntry allTimetables p d s value Grid.free entry)
  | Grid.PressClear =>
      if atCell d s entry then Grid.clearedEntry d s else entry
  end.

(** ** Sample data

    A fourth-year timetable under edit, one stored timetable of another
    class, and a few saved entries. *)

Module Sample.

Definition customOptions : DayOptions :=
  {| fourContinuousDays := false; useCustomDays := true;
     selectedDays := ["Monday"; "Wednesday"] |}.

Definition maths : SubjectTeacherPair :=
  {| id := "s1"; pairSubjectName := "Maths"; pairTeacherName := "Rao";
     pairIsLab := Some false; pairBatchNumber := None |}.

Definition physics : SubjectTeacherPair :=
  {| id := "s2"; pairSubjectName := "Physics"; pairTeacherName := "Iyer";
     pairIsLab := Some false; pairBatchNumber := None |}.

(** A saved Monday first-hour class. *)
Definition savedMaths : TimetableEntry :=
  {| day := "Monday"; timeSlot := "9:30-10:20";
     subjectName := Some "Maths"; teacherName := Some "Rao";
     isLab := Some false; batchNumber := None; isFree := Some false;
     freeType := None; customFreeType := None; isBreak := None;
     isLunch := None; labGroupId := None; isLabGroup := None |}.

(** A saved Friday class: Friday is not among the custom days. *)
Definition savedFriday : TimetableEntry :=
  {| day := "Friday"; timeSlot := "9:30-10:20";
     subjectName := Some "Physics"; teacherName := Some "Iyer";
     isLab := Some false; batchNumber := None; isFree := Some false;
     freeType := None; customFreeType := None; isBreak := None;
     isLunch := None; labGroupId := None; isLabGroup := None |}.

Definition props : Grid.Props :=
  {| Grid.subjectTeacherPairs := [maths; physics];
     Grid.freeHours := [{| type := "Library"; customType := None |}];
     Grid.propDayOptions := customOptions;
     Grid.propYear := "4th Year";
     Grid.propBranch := "CSE";
     Grid.existingEntries := [savedMaths; savedFriday] |}.

(** Another class where Rao already teaches on Monday first hour. *)
Definition otherClass : Timetable :=
  {| formData := {| year := "2nd Year"; branch := "ECE";
                    dayOptions := customOptions |};
     entries := [savedMaths] |}.

Definition stored : list Timetable := [otherClass].

(** The stored copy of the timetable being edited. *)
Definition ownClass : Timetable :=
  {| formData := {| year := "4th Year"; branch := "CSE";
                    dayOptions := customOptions |};
     entries := [savedMaths] |}.

(** Custom days in which Monday was selected twice. *)
Definition repeatedDays : Grid.Props :=
  {| Grid.subjectTeacherPairs := [maths; physics];
     Grid.freeHours := [];
     Grid.propDayOptions :=
       {| fourContinuousDays := false; useCustomDays := true;
          selectedDays := ["Monday"; "Monday"] |};
     Grid.propYear := "4th Year";
     Grid.propBranch := "CSE";
     Grid.existingEntries := [] |}.

Definition view : View.Props :=
  {| View.timetable :=
       {| formData := {| year := "4th Year"; branch := "CSE";
                         dayOptions := customOptions |};
          entries := [savedMaths; savedFriday] |};
     View.facultyFilter := None;
     View.printMode := None |}.

(** Two batches of one lab rotation on Monday morning, and a lab
    whose group id is the empty string. *)
Definition labBatch1 : TimetableEntry :=
  {| day := "Monday"; timeSlot := "9:30-1:00";
     subjectName := Some "Chemistry Lab"; teacherName := Some "Rao";
     isLab := Some true; batchNumber := Some "B1"; isFree := None;
     freeType := None; customFreeType := None; isBreak := None;
     isLunch := None; labGroupId := Some "g1"; isLabGroup := Some true |}.

Definition labBatch2 : TimetableEntry :=
  {| day := "Monday"; timeSlot := "9:30-1:00";
     subjectName := Some "Physics Lab"; teacherName := Some "Iyer";
     isLab := Some true; batchNumber := Some "B2"; isFree := None;
     freeType := None; customFreeType := None; isBreak := None;
     isLunch := None; labGroupId := Some "g1"; isLabGroup := Some true |}.

Definition labNoId : TimetableEntry :=
  {| day := "Monday"; timeSlot := "9:30-1:00";
     subjectName := Some "Workshop"; teacherName := Some "Das";
     isLab := Some true; batchNumber := None; isFree := None;
     freeType := None; customFreeType := None; isBreak := None;
     isLunch := None; labGroupId := Some ""; isLabGroup := None |}.

Definition viewOf (es : list TimetableEntry) : View.Props :=
  {| View.timetable :=
       {| formData := {| year := "2nd Year"; branch := "ECE";
                         dayOptions := customOptions |};
          entries := es |};
     View.facultyFilter := None;
     View.printMode := None |}.

Definition labView : View.Props := viewOf [labBatch1; savedMaths; labBatch2].

Definition emptyIdView : View.Props := viewOf [labNoId; labBatch1].

(** The lab timetable as seen by one teacher. *)
Definition raoView : View.Props :=
  {| View.timetable := View.timetable labView;
     View.facultyFilter := Some "Rao";
     View.printMode := None |}.

(** The view of a timetable saved from the grid. *)
Definition gridView (es : list TimetableEntry) : View.Props :=
  {| View.timetable :=
       {| formData := {| year := "4th Year"; branch := "CSE";
                         dayOptions := customOptions |};
          entries := es |};
     View.facultyFilter := None;
     View.printMode := None |}.

End Sample.

(** ** Basic facts *)

Lemma atCell_true d s entry :
  atCell d s entry = true <-> day entry = d /\ timeSlot entry = s.
Proof.
  unfold atCell. rewrite andb_true_iff, !String.eqb_eq. tauto.
Qed.

Lemma atCell_false d s entry :
  atCell d s entry = false <-> day entry <> d \/ timeSlot entry <> s.
Proof.
  unfold atCell. rewrite andb_false_iff, !String.eqb_neq. tauto.
Qed.

Lemma includes_In xs x : JS.includes xs x = true <-> In x xs.
Proof.
  unfold JS.includes. rewrite existsb_exists. split.
  - intros (y & Hy & E). apply String.eqb_eq in E. now subst.
  - intros H. exists x. split; [assumption | apply String.eqb_refl].
Qed.

Lemma includes_cons x xs y :
  JS.includes (x :: xs) y = (x =? y) || JS.includes xs y.
Proof. reflexivity. Qed.

Lemma strictEq_true o s : JS.strictEq o s = true <-> o = Some s.
Proof.
  destruct o as [v|]; simpl.
  - rewrite String.eqb_eq. split; congruence.
  - split; discriminate.
Qed.

Lemma truthy_true b : JS.truthy b = true <-> b = Some true.
Proof.
  destruct b as [[|]|]; simpl; split; congruence.
Qed.

(** ** Teacher conflicts *)

Lemma scanTimetables_true p d s teacher allTimetables :
  Grid.scanTimetables p d s teacher allTimetables = true
  <-> BookedElsewhere allTimetables p d s teacher.
Proof.
  unfold BookedElsewhere.
  induction allTimetables as [|tt rest IH]; simpl.
  - split; [discriminate | intros (? & [] & _)].
  - destruct (andb (year (formData tt) =? Grid.propYear p)
                   (branch (formData tt) =? Grid.propBranch p)) eqn:Esame.
    + apply andb_true_iff in Esame. rewrite !String.eqb_eq in Esame.
      rewrite IH. split.
      * intros (t & Hin & Hrest). exists t. auto.
      * intros (t & [-> | Hin] & Hne & Hrest).
        -- contradiction.
        -- exists t. auto.
    + apply andb_false_iff in Esame. rewrite !String.eqb_neq in Esame.
      match goal with |- (if ?c then _ else _) = _ <-> _ => destruct c eqn:Ehas end.
      * split; [intros _ | reflexivity].
        apply existsb_exists in Ehas. destruct Ehas as (e & Hin & He).
        rewrite !andb_true_iff, !String.eqb_eq, strictEq_true in He.
        exists tt. split; [now left|]. split; [tauto|].
        exists e. tauto.
      * rewrite IH. split.
        -- intros (t & Hin & Hrest). exists t. auto.
        -- intros (t & [-> | Hin] & Hne & e & He & Hd & Hs & Ht).
           ++ exfalso.
              assert (existsb
                (fun entry => (day entry =? d) && (timeSlot entry =? s)
                              && JS.strictEq (teacherName entry) teacher)
                (entries t) = true) as Hex.
              { apply existsb_exists. exists e. split; [assumption|].
                rewrite !andb_true_iff, !String.eqb_eq, strictEq_true. tauto. }
              congruence.
           ++ exists t. eauto 8.
Qed.

Example conflict_in_other_class :
  Grid.checkTeacherConflicts [Sample.ownClass; Sample.otherClass] Sample.props
    "Monday" "9:30-10:20" "Rao" = true.
Proof. reflexivity. Qed.

Example no_conflict_with_own_class :
  Grid.checkTeacherConflicts [Sample.ownClass] Sample.props
    "Monday" "9:30-10:20" "Rao" = false.
Proof. reflexivity. Qed.

(** C1. [checkTeacherConflicts(day, timeSlot, teacherName)] returns
    [true] if and only if some stored timetable whose year and branch
    are not both those of the component holds an entry with exactly
    that day, time slot and teacher name; otherwise it returns
    [false]. *)
Theorem checkTeacherConflicts_iff :
  forall allTimetables p d s teacher,
    (Grid.checkTeacherConflicts allTimetables p d s teacher = true
     <-> BookedElsewhere allTimetables p d s teacher)
    /\ (Grid.checkTeacherConflicts allTimetables p d s teacher = false
        <-> ~ BookedElsewhere allTimetables p d s teacher).
Proof.
  intros. unfold Grid.checkTeacherConflicts.
  pose proof (scanTimetables_true p d s teacher allTimetables) as H.
  split; [exact H|].
  destruct (Grid.scanTimetables p d s teacher allTimetables).
  - split; [discriminate|]. intros Hn. exfalso. apply Hn, H. reflexivity.
  - split; [|reflexivity]. intros _ Hb. apply H in Hb. discriminate.
Qed.

(** ** Visible days *)

(** C2. For a year other than '4th Year' the visible days are Monday to
    Saturday; for '4th Year' they are the selected days when custom days
    are used, else Monday to Thursday when four continuous days are
    asked for, else Monday to Saturday; the grid and the view compute
    the same list from the same configuration. *)
Theorem visible_days_rule (p : Grid.Props) (v : View.Props)
    (Hyear : year (formData (View.timetable v)) = Grid.propYear p)
    (Hopts : dayOptions (formData (View.timetable v)) = Grid.propDayOptions p) :
  (forall l, VisibleDays (Grid.propYear p) (Grid.propDayOptions p) l
             <-> l = Grid.days p)
  /\ View.visibleDays v = Grid.days p.
Proof.
  split.
  - intros l. unfold Grid.days.
    destruct (Grid.propYear p =? "4th Year") eqn:Ey.
    + apply String.eqb_eq in Ey.
      destruct (useCustomDays (Grid.propDayOptions p)) eqn:Ec;
        [|destruct (fourContinuousDays (Grid.propDayOptions p)) eqn:Ef].
      * split.
        -- inversion 1; subst; solve [reflexivity | congruence].
        -- intros ->. now apply VisibleCustom.
      * split.
        -- inversion 1; subst; solve [reflexivity | congruence].
        -- intros ->. now apply VisibleFour.
      * split.
        -- inversion 1; subst; solve [reflexivity | congruence].
        -- intros ->. now apply VisibleAll.
    + apply String.eqb_neq in Ey. split.
      * inversion 1; subst; solve [reflexivity | congruence].
      * intros ->. now apply VisibleOtherYear.
  - unfold View.visibleDays, Grid.days, View.days. cbv zeta.
    rewrite Hyear, Hopts. reflexivity.
Qed.

Lemma visible_days_rule_witness :
  (forall l, VisibleDays "4th Year" Sample.customOptions l
             <-> l = ["Monday"; "Wednesday"])
  /\ View.visibleDays Sample.view = ["Monday"; "Wednesday"].
Proof.
  exact (@visible_days_rule Sample.props Sample.view eq_refl eq_refl).
Defined.

(** ** Initialisation of the grid *)

Lemma fold_left_pushFoundOr (f : TimeSlot -> option TimetableEntry)
    (g : TimeSlot -> TimetableEntry) (ss : list TimeSlot) :
  forall acc,
    fold_left (fun a s => Grid.pushFoundOr a (f s) (g s)) ss acc
    = (acc ++ map (fun s => match f s with Some e => e | None => g s end) ss)%list.
Proof.
  induction ss as [|s ss IH]; intros acc; simpl.
  - now rewrite app_nil_r.
  - rewrite IH. unfold Grid.pushFoundOr, Grid.push.
    destruct (f s); now rewrite <- app_assoc.
Qed.

Lemma find_filter {A} (P Q : A -> bool) (l : list A) :
  (forall x, P x = true -> Q x = true) ->
  find P (filter Q l) = find P l.
Proof.
  intros HPQ. induction l as [|x l IH]; simpl; [reflexivity|].
  destruct (Q x) eqn:Eq; simpl.
  - now rewrite IH.
  - destruct (P x) eqn:Ep; [|exact IH].
    apply HPQ in Ep. congruence.
Qed.

(** [find] returns the first element satisfying the test. *)
Lemma find_first {A} (P : A -> bool) (l : list A) :
  match find P l with
  | Some x =>
      exists before after,
        l = (before ++ x :: after)%list /\ P x = true
        /\ forall y, In y before -> P y = false
  | None => forall y, In y l -> P y = false
  end.
Proof.
  induction l as [|a l IH]; simpl.
  - intros y [].
  - destruct (P a) eqn:Ea.
    + exists [], l. repeat split; auto. intros y [].
    + destruct (find P l) as [x|].
      * destruct IH as (before & after & -> & Hx & Hbefore).
        exists (a :: before), after. repeat split; auto.
        intros y [<- | Hy]; auto.
      * intros y [<- | Hy]; auto.
Qed.

Lemma visible_keeps_cell ds d s (P : TimetableEntry -> bool) entry :
  In d ds ->
  atCell d s entry && P entry = true ->
  JS.includes ds (day entry) = true.
Proof.
  intros Hd H. apply andb_true_iff in H. destruct H as [H _].
  apply atCell_true in H. destruct H as [-> _]. now apply includes_In.
Qed.

Lemma reconcileDay_block ds existing acc d :
  In d ds ->
  Grid.reconcileDay (filter (fun entry => JS.includes ds (day entry)) existing) acc d
  = (acc ++ dayBlock existing d)%list.
Proof.
  intros Hd. unfold Grid.reconcileDay. cbv zeta.
  rewrite fold_left_pushFoundOr.
  rewrite (find_filter
             (fun entry => atCell d breakSlot entry && JS.truthy (isBreak entry)))
    by (intros x Hx;
        exact (@visible_keeps_cell ds d breakSlot
                 (fun entry => JS.truthy (isBreak entry)) x Hd Hx)).
  rewrite (find_filter
             (fun entry => atCell d lunchSlot entry && JS.truthy (isLunch entry)))
    by (intros x Hx;
        exact (@visible_keeps_cell ds d lunchSlot
                 (fun entry => JS.truthy (isLunch entry)) x Hd Hx)).
  assert (Hteach :
    map (fun s => match find (atCell d s)
                          (filter (fun entry => JS.includes ds (day entry)) existing)
                  with Some e => e | None => bareEntry d s end) Grid.timeSlots
    = map (keptAt existing d) Grid.timeSlots).
  { apply map_ext. intros s. unfold keptAt.
    rewrite find_filter; [reflexivity|].
    intros x Hx. apply (@visible_keeps_cell ds d s (fun _ => true)); auto.
    now rewrite andb_true_r. }
  rewrite Hteach. unfold dayBlock, keptBreak, keptLunch, Grid.pushFoundOr, Grid.push.
  destruct (find _ existing); destruct (find _ existing);
    rewrite <- !app_assoc; reflexivity.
Qed.

Lemma reconcile_fold ds existing :
  forall some acc,
    incl some ds ->
    fold_left (Grid.reconcileDay
                 (filter (fun entry => JS.includes ds (day entry)) existing))
              some acc
    = (acc ++ flat_map (dayBlock existing) some)%list.
Proof.
  induction some as [|d some IH]; intros acc Hincl; simpl.
  - now rewrite app_nil_r.
  - rewrite reconcileDay_block by (apply Hincl; now left).
    rewrite IH by (intros x Hx; apply Hincl; now right).
    now rewrite <- app_assoc.
Qed.

Lemma blankDay_block acc d :
  Grid.blankDay acc d = (acc ++ dayBlock [] d)%list.
Proof.
  unfold Grid.blankDay. cbv zeta.
  change (fun a s => Grid.push a (bareEntry d s))
    with (fun a s => Grid.pushFoundOr a (@None TimetableEntry) (bareEntry d s)).
  rewrite (fold_left_pushFoundOr (fun _ => None)).
  unfold Grid.push, dayBlock. now rewrite <- !app_assoc.
Qed.

Lemma blank_fold :
  forall ds acc,
    fold_left Grid.blankDay ds acc = (acc ++ flat_map (dayBlock []) ds)%list.
Proof.
  induction ds as [|d ds IH]; intros acc; simpl.
  - now rewrite app_nil_r.
  - rewrite blankDay_block, IH. now rewrite <- app_assoc.
Qed.

(** Whether or not entries were saved before, the initial list is the
    concatenation of the day blocks. *)
Lemma initialEntries_blocks p :
  Grid.initialEntries p
  = flat_map (dayBlock (Grid.existingEntries p)) (Grid.days p).
Proof.
  unfold Grid.initialEntries.
  destruct (Grid.existingEntries p) as [|e es] eqn:E.
  - apply blank_fold.
  - cbv zeta. rewrite reconcile_fold by apply incl_refl. reflexivity.
Qed.

Lemma keptAt_cell existing d s :
  day (keptAt existing d s) = d /\ timeSlot (keptAt existing d s) = s.
Proof.
  unfold keptAt. destruct (find (atCell d s) existing) eqn:E.
  - apply find_some in E. destruct E as [_ E]. now apply atCell_true.
  - split; reflexivity.
Qed.

Lemma keptBreak_cell existing d :
  day (keptBreak existing d) = d
  /\ timeSlot (keptBreak existing d) = breakSlot
  /\ isBreak (keptBreak existing d) = Some true.
Proof.
  unfold keptBreak. destruct (find _ existing) eqn:E.
  - apply find_some in E. destruct E as [_ E].
    apply andb_true_iff in E. destruct E as [E1 E2].
    apply atCell_true in E1. apply truthy_true in E2. tauto.
  - repeat split; reflexivity.
Qed.

Lemma keptLunch_cell existing d :
  day (keptLunch existing d) = d
  /\ timeSlot (keptLunch existing d) = lunchSlot
  /\ isLunch (keptLunch existing d) = Some true.
Proof.
  unfold keptLunch. destruct (find _ existing) eqn:E.
  - apply find_some in E. destruct E as [_ E].
    apply andb_true_iff in E. destruct E as [E1 E2].
    apply atCell_true in E1. apply truthy_true in E2. tauto.
  - repeat split; reflexivity.
Qed.

Lemma dayBlock_day existing d entry :
  In entry (dayBlock existing d) -> day entry = d.
Proof.
  unfold dayBlock. rewrite in_app_iff, in_map_iff.
  intros [(s & <- & _) | [<- | [<- | []]]].
  - apply keptAt_cell.
  - apply keptBreak_cell.
  - apply keptLunch_cell.
Qed.

Lemma initialEntries_visible p entry :
  In entry (Grid.initialEntries p) -> In (day entry) (Grid.days p).
Proof.
  rewrite initialEntries_blocks, in_flat_map.
  intros (d & Hd & Hin). apply dayBlock_day in Hin. now subst.
Qed.

Example initialEntries_sample :
  Grid.initialEntries Sample.props
  = (Sample.savedMaths
       :: map (bareEntry "Monday")
            ["10:20-11:10"; "11:20-12:10"; "12:10-1:00";
             "2:00-2:50"; "2:50-3:40"; "3:40-4:30"]
       ++ [Grid.breakEntry "Monday"; Grid.lunchEntry "Monday"]
       ++ map (bareEntry "Wednesday") Grid.timeSlots
       ++ [Grid.breakEntry "Wednesday"; Grid.lunchEntry "Wednesday"])%list.
Proof. reflexivity. Qed.

(** C3. With a non-empty list of existing entries, the grid's entry
    list holds, for every visible day in turn, one entry per teaching
    slot (the first existing entry at that day and slot if there is
    one, else a fresh empty entry), then one break entry at
    '11:10-11:20' and one lunch entry at '1:00-2:00'; an existing entry
    whose day is not visible is discarded. *)
Theorem initialEntries_reconciled (p : Grid.Props)
    (Hsaved : Grid.existingEntries p <> []) :
  Grid.initialEntries p
  = flat_map
      (fun d =>
         map (keptAt (Grid.existingEntries p) d) Grid.timeSlots
         ++ [keptBreak (Grid.existingEntries p) d;
             keptLunch (Grid.existingEntries p) d])%list
      (Grid.days p)
  /\ (forall d s,
        (exists before entry after,
            Grid.existingEntries p = (before ++ entry :: after)%list
            /\ day entry = d /\ timeSlot entry = s
            /\ (forall y, In y before -> day y <> d \/ timeSlot y <> s)
            /\ keptAt (Grid.existingEntries p) d s = entry)
        \/ ((forall y, In y (Grid.existingEntries p) ->
                       day y <> d \/ timeSlot y <> s)
            /\ keptAt (Grid.existingEntries p) d s = bareEntry d s))
  /\ (forall d,
        (day (keptBreak (Grid.existingEntries p) d) = d
         /\ timeSlot (keptBreak (Grid.existingEntries p) d) = "11:10-11:20"
         /\ isBreak (keptBreak (Grid.existingEntries p) d) = Some true)
        /\ (day (keptLunch (Grid.existingEntries p) d) = d
            /\ timeSlot (keptLunch (Grid.existingEntries p) d) = "1:00-2:00"
            /\ isLunch (keptLunch (Grid.existingEntries p) d) = Some true))
  /\ (forall entry,
        In entry (Grid.existingEntries p) ->
        ~ In (day entry) (Grid.days p) ->
        ~ In entry (Grid.initialEntries p)).
Proof.
  split; [apply initialEntries_blocks|].
  split; [|split].
  - intros d s. unfold keptAt.
    pose proof (find_first (atCell d s) (Grid.existingEntries p)) as H.
    destruct (find (atCell d s) (Grid.existingEntries p)) as [entry|].
    + left. destruct H as (before & after & E & Hc & Hb).
      apply atCell_true in Hc.
      exists before, entry, after. repeat split; try tauto.
      intros y Hy. now apply atCell_false, Hb.
    + right. split; [|reflexivity].
      intros y Hy. now apply atCell_false, H.
  - intros d. split; [apply keptBreak_cell | apply keptLunch_cell].
  - intros entry _ Hhidden Hin. apply Hhidden.
    now apply initialEntries_visible.
Qed.

Lemma initialEntries_reconciled_witness :
  Grid.initialEntries Sample.props
  = flat_map
      (fun d =>
         map (keptAt [Sample.savedMaths; Sample.savedFriday] d) Grid.timeSlots
         ++ [keptBreak [Sample.savedMaths; Sample.savedFriday] d;
             keptLunch [Sample.savedMaths; Sample.savedFriday] d])%list
      ["Monday"; "Wednesday"]
  /\ ~ In Sample.savedFriday (Grid.initialEntries Sample.props).
Proof.
  assert (Grid.existingEntries Sample.props <> []) as Hsaved
    by (simpl; discriminate).
  destruct (initialEntries_reconciled Sample.props Hsaved)
    as (Hblocks & _ & _ & Hhidden).
  split.
  - exact Hblocks.
  - apply Hhidden.
    + simpl. right. left. reflexivity.
    + simpl. intros [H | [H | []]]; discriminate H.
Defined.

(** ** One entry per cell *)

Lemma cellCount_app d s l1 l2 :
  cellCount d s (l1 ++ l2) = cellCount d s l1 + cellCount d s l2.
Proof.
  unfold cellCount. now rewrite filter_app, length_app.
Qed.

Lemma atCell_keptAt existing d' s' d s :
  atCell d s (keptAt existing d' s') = (d' =? d) && (s' =? s).
Proof.
  unfold atCell. now destruct (keptAt_cell existing d' s') as [-> ->].
Qed.

Lemma atCell_keptBreak existing d' d s :
  atCell d s (keptBreak existing d') = (d' =? d) && (breakSlot =? s).
Proof.
  unfold atCell. now destruct (keptBreak_cell existing d') as (-> & -> & _).
Qed.

Lemma atCell_keptLunch existing d' d s :
  atCell d s (keptLunch existing d') = (d' =? d) && (lunchSlot =? s).
Proof.
  unfold atCell. now destruct (keptLunch_cell existing d') as (-> & -> & _).
Qed.

(** A day block holds one entry for each of the nine rows of its own
    day and nothing else. *)
Lemma cellCount_dayBlock existing d' d s :
  cellCount d s (dayBlock existing d')
  = if (d' =? d) && JS.includes gridSlots s then 1 else 0.
Proof.
  unfold cellCount, dayBlock, Grid.timeSlots. simpl map. simpl app.
  cbn [filter].
  rewrite !atCell_keptAt, atCell_keptBreak, atCell_keptLunch.
  destruct (d' =? d); [|reflexivity].
  unfold gridSlots, Grid.timeSlots, JS.includes, breakSlot, lunchSlot.
  cbn [andb app existsb].
  repeat match goal with
         | |- context [String.eqb ?lit s] =>
             destruct (String.eqb_spec lit s) as [<- | _]; [reflexivity|]
         end.
  reflexivity.
Qed.

Lemma cellCount_blocks existing d s :
  forall ds,
    NoDup ds ->
    cellCount d s (flat_map (dayBlock existing) ds)
    = if JS.includes ds d && JS.includes gridSlots s then 1 else 0.
Proof.
  induction ds as [|d' ds IH]; intros Hnd; [reflexivity|].
  inversion Hnd as [|? ? Hnotin Hnd']; subst.
  cbn [flat_map]. rewrite cellCount_app, cellCount_dayBlock, (IH Hnd').
  rewrite includes_cons.
  destruct (String.eqb_spec d' d) as [<- | Hne]; cbn [andb orb].
  - assert (JS.includes ds d' = false) as ->.
    { destruct (JS.includes ds d') eqn:E; [|reflexivity].
      apply includes_In in E. contradiction. }
    cbn [andb]. destruct (JS.includes gridSlots s); reflexivity.
  - reflexivity.
Qed.

Lemma initial_one_entry_per_cell p :
  NoDup (Grid.days p) ->
  OneEntryPerCell (Grid.days p) (Grid.initialEntries p).
Proof.
  intros Hnd d s. rewrite initialEntries_blocks, (cellCount_blocks _ _ _ Hnd).
  split.
  - destruct (_ && _); lia.
  - intros Hd Hs. apply includes_In in Hd, Hs. now rewrite Hd, Hs.
Qed.

(** An update that keeps every entry in its cell keeps the counts. *)
Lemma cellCount_map (f : TimetableEntry -> TimetableEntry) d s l :
  (forall entry, day (f entry) = day entry /\ timeSlot (f entry) = timeSlot entry) ->
  cellCount d s (map f l) = cellCount d s l.
Proof.
  intros Hf. unfold cellCount.
  induction l as [|e l IH]; [reflexivity|]. simpl.
  assert (atCell d s (f e) = atCell d s e) as ->.
  { unfold atCell. now destruct (Hf e) as [-> ->]. }
  destruct (atCell d s e); simpl; now rewrite IH.
Qed.

Lemma handleCellChange_map allTimetables p d s value ty l :
  fst (Grid.handleCellChange allTimetables p d s value ty l)
  = map (fun entry => fst (Grid.changeEntry allTimetables p d s value ty entry)) l.
Proof.
  unfold Grid.handleCellChange. cbv zeta. simpl. now rewrite map_map.
Qed.

Lemma changeEntry_cell allTimetables p d s value ty entry :
  day (fst (Grid.changeEntry allTimetables p d s value ty entry)) = day entry
  /\ timeSlot (fst (Grid.changeEntry allTimetables p d s value ty entry))
     = timeSlot entry.
Proof.
  unfold Grid.changeEntry.
  destruct (atCell d s entry); [|now split].
  destruct ty; [|now split].
  destruct (find _ (Grid.subjectTeacherPairs p)); [|now split].
  destruct (Grid.checkTeacherConflicts _ _ _ _ _); now split.
Qed.

Lemma clearEntry_cell d s entry :
  day (if atCell d s entry then Grid.clearedEntry d s else entry) = day entry
  /\ timeSlot (if atCell d s entry then Grid.clearedEntry d s else entry)
     = timeSlot entry.
Proof.
  destruct (atCell d s entry) eqn:E; [|now split].
  apply atCell_true in E. destruct E as [<- <-]. now split.
Qed.

Example repeated_day_two_entries :
  cellCount "Monday" "9:30-10:20" (Grid.initialEntries Sample.repeatedDays) = 2.
Proof. reflexivity. Qed.

(** C4, as stated, fails when a day is selected twice: the grid then
    holds two entries for each Monday cell. *)
Lemma one_entry_per_cell_repeated_day :
  ~ OneEntryPerCell (Grid.days Sample.repeatedDays)
                    (Grid.initialEntries Sample.repeatedDays).
Proof.
  intros H. destruct (H "Monday" "9:30-10:20") as [Hle _].
  vm_compute in Hle. lia.
Qed.

(** C4 (amended). Provided no day occurs twice among the visible days,
    initialisation, with or without existing entries, yields exactly
    one entry per (day, time slot) pair for every visible day across
    the seven teaching slots, the break and the lunch; [handleCellChange]
    and [clearCell] preserve the invariant for every input. *)
Theorem one_entry_per_cell (p : Grid.Props) (allTimetables : list Timetable)
    (d : Day) (s : TimeSlot) (value : string) (ty : Grid.ChangeType)
    (ds : list Day) (l : list TimetableEntry)
    (Hdistinct : NoDup (Grid.days p)) :
  OneEntryPerCell (Grid.days p) (Grid.initialEntries p)
  /\ (OneEntryPerCell ds l ->
      OneEntryPerCell ds (fst (Grid.handleCellChange allTimetables p d s value ty l))
      /\ OneEntryPerCell ds (Grid.clearCell d s l)).
Proof.
  split; [now apply initial_one_entry_per_cell|].
  intros Hinv. split; intros d0 s0.
  - rewrite handleCellChange_map, cellCount_map; [apply Hinv|].
    intros entry. apply changeEntry_cell.
  - unfold Grid.clearCell. rewrite cellCount_map; [apply Hinv|].
    intros entry. apply clearEntry_cell.
Qed.

Lemma one_entry_per_cell_witness :
  OneEntryPerCell ["Monday"; "Wednesday"] (Grid.initialEntries Sample.props)
  /\ OneEntryPerCell ["Monday"; "Wednesday"]
       (fst (Grid.handleCellChange Sample.stored Sample.props
               "Monday" "10:20-11:10" "s2|Iyer" Grid.subject
               (Grid.initialEntries Sample.props)))
  /\ OneEntryPerCell ["Monday"; "Wednesday"]
       (Grid.clearCell "Monday" "9:30-10:20" (Grid.initialEntries Sample.props)).
Proof.
  assert (NoDup (Grid.days Sample.props)) as Hdistinct.
  { simpl. repeat constructor; simpl; intros H;
      repeat (destruct H as [H | H]; [discriminate H|]); exact H. }
  split.
  - exact (proj1 (@one_entry_per_cell Sample.props Sample.stored
                    "Monday" "10:20-11:10" "s2|Iyer" Grid.subject
                    ["Monday"; "Wednesday"] (Grid.initialEntries Sample.props)
                    Hdistinct)).
  - split.
    + apply (@one_entry_per_cell Sample.props Sample.stored
               "Monday" "10:20-11:10" "s2|Iyer" Grid.subject
               ["Monday"; "Wednesday"] (Grid.initialEntries Sample.props)
               Hdistinct).
      exact (proj1 (@one_entry_per_cell Sample.props Sample.stored
                      "Monday" "10:20-11:10" "s2|Iyer" Grid.subject
                      ["Monday"; "Wednesday"] (Grid.initialEntries Sample.props)
                      Hdistinct)).
    + apply (@one_entry_per_cell Sample.props Sample.stored
               "Monday" "9:30-10:20" "" Grid.free
               ["Monday"; "Wednesday"] (Grid.initialEntries Sample.props)
               Hdistinct).
      exact (proj1 (@one_entry_per_cell Sample.props Sample.stored
                      "Monday" "10:20-11:10" "s2|Iyer" Grid.subject
                      ["Monday"; "Wednesday"] (Grid.initialEntries Sample.props)
                      Hdistinct)).
Defined.

(** ** Editing a cell *)

Example subjectIdOf_sample : Grid.subjectIdOf "s1|Rao" = "s1".
Proof. reflexivity. Qed.

Example split_sample : JS.split "|"%char "a|b||c" = ["a"; "b"; ""; "c"].
Proof. reflexivity. Qed.

Lemma changeEntry_conflict allTimetables p d s value subj entry :
  find (fun s0 => id s0 =? Grid.subjectIdOf value) (Grid.subjectTeacherPairs p)
    = Some subj ->
  Grid.checkTeacherConflicts allTimetables p d s (pairTeacherName subj) = true ->
  fst (Grid.changeEntry allTimetables p d s value Grid.subject entry) = entry.
Proof.
  intros Hfound Hconflict. unfold Grid.changeEntry.
  rewrite Hfound, Hconflict. now destruct (atCell d s entry).
Qed.

Lemma changeEntry_elsewhere allTimetables p d s value ty entry :
  atCell d s entry = false ->
  Grid.changeEntry allTimetables p d s value ty entry = (entry, []).
Proof.
  intros H. unfold Grid.changeEntry. now rewrite H.
Qed.

(** C7. When [handleCellChange] assigns a subject whose teacher is
    booked at that day and time slot in another stored timetable, the
    assignment is rejected: the entry list comes back unchanged, so no
    field of any entry is modified. *)
Theorem conflict_rejects_assignment (allTimetables : list Timetable)
    (p : Grid.Props) (d : Day) (s : TimeSlot) (value : string)
    (subj : SubjectTeacherPair) (l : list TimetableEntry)
    (Hfound : find (fun s0 => id s0 =? Grid.subjectIdOf value)
                   (Grid.subjectTeacherPairs p) = Some subj)
    (Hbooked : BookedElsewhere allTimetables p d s (pairTeacherName subj)) :
  fst (Grid.handleCellChange allTimetables p d s value Grid.subject l) = l.
Proof.
  rewrite handleCellChange_map.
  rewrite <- (map_id l) at 2. apply map_ext. intros entry.
  apply changeEntry_conflict with (subj := subj); [assumption|].
  unfold Grid.checkTeacherConflicts. now apply scanTimetables_true.
Qed.

Lemma conflict_rejects_assignment_witness :
  fst (Grid.handleCellChange Sample.stored Sample.props
         "Monday" "9:30-10:20" "s1|Rao" Grid.subject
         (Grid.initialEntries Sample.props))
  = Grid.initialEntries Sample.props.
Proof.
  apply (@conflict_rejects_assignment Sample.stored Sample.props
           "Monday" "9:30-10:20" "s1|Rao" Sample.maths).
  - reflexivity.
  - exists Sample.otherClass. split; [simpl; now left|].
    split.
    + simpl. intros [H _]. discriminate H.
    + exists Sample.savedMaths. simpl. repeat split. now left.
Defined.

(** C8. [handleCellChange] and [clearCell] leave every entry whose day
    or time slot differs from the target unchanged, and both preserve
    the length of the entry list. *)
Theorem other_cells_untouched (allTimetables : list Timetable)
    (p : Grid.Props) (d : Day) (s : TimeSlot) (value : string)
    (ty : Grid.ChangeType) (l : list TimetableEntry) :
  List.length (fst (Grid.handleCellChange allTimetables p d s value ty l))
  = List.length l
  /\ List.length (Grid.clearCell d s l) = List.length l
  /\ forall i entry,
       nth_error l i = Some entry ->
       day entry <> d \/ timeSlot entry <> s ->
       nth_error (fst (Grid.handleCellChange allTimetables p d s value ty l)) i
       = Some entry
       /\ nth_error (Grid.clearCell d s l) i = Some entry.
Proof.
  rewrite handleCellChange_map. unfold Grid.clearCell.
  rewrite !length_map. split; [reflexivity|]. split; [reflexivity|].
  intros i entry Hi Hcell. apply atCell_false in Hcell.
  rewrite !nth_error_map, Hi. simpl. split.
  - now rewrite changeEntry_elsewhere.
  - now rewrite Hcell.
Qed.

Lemma other_cells_untouched_witness :
  nth_error
    (fst (Grid.handleCellChange Sample.stored Sample.props
            "Monday" "10:20-11:10" "s2|Iyer" Grid.subject
            (Grid.initialEntries Sample.props))) 0
  = Some Sample.savedMaths
  /\ nth_error
       (Grid.clearCell "Monday" "10:20-11:10" (Grid.initialEntries Sample.props)) 0
     = Some Sample.savedMaths.
Proof.
  apply (@other_cells_untouched Sample.stored Sample.props
           "Monday" "10:20-11:10" "s2|Iyer" Grid.subject
           (Grid.initialEntries Sample.props)).
  - reflexivity.
  - right. simpl. discriminate.
Defined.

Example handleCellChange_sample :
  nth_error
    (fst (Grid.handleCellChange Sample.stored Sample.props
            "Monday" "10:20-11:10" "s2|Iyer" Grid.subject
            (Grid.initialEntries Sample.props))) 1
  = Some {| day := "Monday"; timeSlot := "10:20-11:10";
            subjectName := Some "Physics"; teacherName := Some "Iyer";
            isLab := Some false; batchNumber := None; isFree := Some false;
            freeType := None; customFreeType := None; isBreak := None;
            isLunch := None; labGroupId := None; isLabGroup := None |}.
Proof. reflexivity. Qed.

Lemma clearEntry_fixed d s entry :
  (fun e => if atCell d s e then Grid.clearedEntry d s else e)
    (if atCell d s entry then Grid.clearedEntry d s else entry)
  = if atCell d s entry then Grid.clearedEntry d s else entry.
Proof.
  cbv beta. destruct (atCell d s entry) eqn:E.
  - assert (atCell d s (Grid.clearedEntry d s) = true) as ->; [|reflexivity].
    apply atCell_true. now split.
  - now rewrite E.
Qed.

(** C9. [clearCell] is idempotent, and after one application the
    targeted entry has [subjectName], [teacherName], [batchNumber] and
    [freeType] undefined and [isLab] and [isFree] false. *)
Theorem clearCell_idempotent (d : Day) (s : TimeSlot) (l : list TimetableEntry) :
  Grid.clearCell d s (Grid.clearCell d s l) = Grid.clearCell d s l
  /\ forall i entry,
       nth_error l i = Some entry ->
       day entry = d -> timeSlot entry = s ->
       exists cleared,
         nth_error (Grid.clearCell d s l) i = Some cleared
         /\ day cleared = d /\ timeSlot cleared = s
         /\ subjectName cleared = None /\ teacherName cleared = None
         /\ batchNumber cleared = None /\ freeType cleared = None
         /\ isLab cleared = Some false /\ isFree cleared = Some false.
Proof.
  unfold Grid.clearCell. split.
  - rewrite map_map. apply map_ext. intros entry. apply clearEntry_fixed.
  - intros i entry Hi Hd Hs. exists (Grid.clearedEntry d s).
    rewrite nth_error_map, Hi. simpl.
    assert (atCell d s entry = true) as -> by now apply atCell_true.
    repeat split.
Qed.

Lemma clearCell_idempotent_witness :
  exists cleared,
    nth_error (Grid.clearCell "Monday" "9:30-10:20"
                 (Grid.initialEntries Sample.props)) 0 = Some cleared
    /\ day cleared = "Monday" /\ timeSlot cleared = "9:30-10:20"
    /\ subjectName cleared = None /\ teacherName cleared = None
    /\ batchNumber cleared = None /\ freeType cleared = None
    /\ isLab cleared = Some false /\ isFree cleared = Some false.
Proof.
  apply (proj2 (clearCell_idempotent "Monday" "9:30-10:20"
                  (Grid.initialEntries Sample.props)) 0 Sample.savedMaths);
    reflexivity.
Defined.

(** ** Cells of the read-only view *)

(** C10. In [TimetableView] the '11:10-11:20' row always shows 'Break'
    and the '1:00-2:00' row always shows 'Lunch', for every day,
    timetable and faculty filter, whatever entries sit at those slots. *)
Theorem break_and_lunch_rows :
  forall (p : View.Props) (d : Day),
    View.renderCellContent p d "11:10-11:20" = View.Break
    /\ View.renderCellContent p d "1:00-2:00" = View.Lunch.
Proof.
  intros p d. split; reflexivity.
Qed.

(** The entries the view works on. *)
Lemma viewEntries_In p entry :
  In entry (View.viewEntries p)
  <-> In entry (entries (View.timetable p))
      /\ (forall f, View.facultyFilter p = Some f -> f <> "" ->
                    teacherName entry = Some f).
Proof.
  unfold View.viewEntries. destruct (View.facultyFilter p) as [f|].
  - simpl. destruct (String.eqb_spec f "") as [-> | Hne]; simpl.
    + split; [|tauto]. intros H. split; [assumption|].
      intros f Hf Hne. now injection Hf as <-.
    + rewrite filter_In, strictEq_true. split.
      * intros [Hin Ht]. split; [assumption|]. intros f0 Hf _.
        now injection Hf as <-.
      * intros [Hin Ht]. split; [assumption|]. now apply Ht.
  - split; [|tauto]. intros H. split; [assumption|]. discriminate.
Qed.

(** C6. [getLabsForTimeSlot(day, timeSlot)] returns an entry exactly
    when it is on that day, is marked [isLab] or [isLabGroup], and
    either spans '9:30-1:00' while the queried slot is one of the four
    morning slots, or spans '2:00-4:30' while the queried slot is one
    of the three afternoon slots. *)
Theorem getLabsForTimeSlot_iff :
  forall (p : View.Props) (d : Day) (s : TimeSlot) (entry : TimetableEntry),
    In entry (View.getLabsForTimeSlot p d s)
    <-> In entry (View.viewEntries p)
        /\ day entry = d
        /\ (isLab entry = Some true \/ isLabGroup entry = Some true)
        /\ ((timeSlot entry = "9:30-1:00"
             /\ In s ["9:30-10:20"; "10:20-11:10"; "11:20-12:10"; "12:10-1:00"])
            \/ (timeSlot entry = "2:00-4:30"
                /\ In s ["2:00-2:50"; "2:50-3:40"; "3:40-4:30"])).
Proof.
  intros p d s entry. unfold View.getLabsForTimeSlot, View.spansSlot.
  rewrite filter_In, !andb_true_iff, !orb_true_iff, !andb_true_iff.
  rewrite !includes_In, !truthy_true, !String.eqb_eq.
  unfold View.morningLab, View.afternoonLab, View.morningSlots, View.afternoonSlots.
  tauto.
Qed.

(** ** Lab groups *)

Lemma compact_In xs g :
  In g (JS.compact xs) <-> In (Some g) xs /\ g <> "".
Proof.
  induction xs as [|[v|] xs IH]; simpl.
  - tauto.
  - destruct (String.eqb_spec v "") as [-> | Hne]; simpl; rewrite IH.
    + split; [tauto|]. intros [[H | H] Hg]; [|tauto].
      injection H as <-. contradiction.
    + split.
      * intros [<- | H]; [split; [now left | assumption]|tauto].
      * intros [[H | H] Hg]; [injection H as <-; now left | tauto].
  - rewrite IH. split; [tauto|]. intros [[H | H] Hg]; [discriminate|tauto].
Qed.

Lemma unique_In xs :
  forall seen g, In g (JS.unique seen xs) <-> In g xs /\ ~ In g seen.
Proof.
  induction xs as [|x xs IH]; intros seen g; simpl; [tauto|].
  destruct (JS.includes seen x) eqn:E.
  - apply includes_In in E. rewrite IH. split.
    + tauto.
    + intros [[<- | H] Hn]; [contradiction | tauto].
  - assert (~ In x seen) as Hx.
    { intros H. apply includes_In in H. congruence. }
    simpl. rewrite IH. simpl. split.
    + intros [<- | [H Hn]]; [tauto|]. split; [tauto|]. tauto.
    + intros [[<- | H] Hn]; [now left|].
      destruct (string_dec x g) as [<- | Hne]; [now left|]. right. tauto.
Qed.

Lemma labGroupIds_In labEntries g :
  In g (View.labGroupIds labEntries)
  <-> g <> "" /\ exists entry, In entry labEntries /\ labGroupId entry = Some g.
Proof.
  unfold View.labGroupIds. rewrite unique_In, compact_In, in_map_iff.
  simpl. firstorder.
Qed.

Lemma spanned_slot_teaching d s entry :
  View.spansSlot d s entry = true ->
  (s =? breakSlot) = false /\ (s =? lunchSlot) = false.
Proof.
  unfold View.spansSlot. rewrite !andb_true_iff, !orb_true_iff, !andb_true_iff.
  rewrite !includes_In. unfold View.morningSlots, View.afternoonSlots. simpl.
  intros (_ & [[_ H] | [_ H]]);
    repeat (destruct H as [<- | H]; [split; reflexivity|]); destruct H.
Qed.

Lemma getLabEntries_In p groupId member :
  In member (View.getLabEntries p groupId)
  <-> In member (View.viewEntries p) /\ labGroupId member = Some groupId.
Proof.
  unfold View.getLabEntries. now rewrite filter_In, strictEq_true.
Qed.

(** When a lab of a group with a non-empty id spans the slot, the cell
    is a rotation holding one fragment per distinct group id. *)
Lemma rotation_rendered p d s g spanning :
  In spanning (View.getLabsForTimeSlot p d s) ->
  labGroupId spanning = Some g ->
  g <> "" ->
  View.renderCellContent p d s
  = View.LabRotation
      (map (fun groupId => (groupId, View.getLabEntries p groupId))
           (View.labGroupIds (View.getLabsForTimeSlot p d s)))
  /\ In g (View.labGroupIds (View.getLabsForTimeSlot p d s)).
Proof.
  intros Hin Hg Hne.
  assert (In g (View.labGroupIds (View.getLabsForTimeSlot p d s))) as Hids.
  { apply labGroupIds_In. split; [assumption|]. now exists spanning. }
  split; [|assumption].
  assert (View.spansSlot d s spanning = true) as Hspan.
  { unfold View.getLabsForTimeSlot in Hin. now apply filter_In in Hin. }
  apply spanned_slot_teaching in Hspan. destruct Hspan as [Hb Hl].
  unfold View.renderCellContent. rewrite Hb, Hl. cbv zeta.
  destruct (View.getLabsForTimeSlot p d s) as [|e es]; [destruct Hin|].
  destruct (View.labGroupIds (e :: es)) as [|i ids]; [destruct Hids|].
  reflexivity.
Qed.

Example rotation_sample :
  View.renderCellContent Sample.labView "Monday" "10:20-11:10"
  = View.LabRotation [("g1", [Sample.labBatch1; Sample.labBatch2])].
Proof. reflexivity. Qed.

Example empty_id_sample :
  View.renderCellContent Sample.emptyIdView "Monday" "10:20-11:10"
  = View.LabRotation [("g1", [Sample.labBatch1])].
Proof. reflexivity. Qed.

(** C5, as stated, fails for a lab whose group id is the empty string:
    the id is dropped as falsy before the groups are laid out, so the
    lab spans the slot and yet is missing from the cell. *)
Lemma groups_render_together_empty_id :
  ~ GroupsRenderTogether Sample.emptyIdView.
Proof.
  intros H.
  specialize (H "Monday" "10:20-11:10" "" Sample.labNoId Sample.labNoId).
  assert (In Sample.labNoId
            (View.shownEntries
               (View.renderCellContent Sample.emptyIdView "Monday" "10:20-11:10")))
    as Hshown.
  { apply H; try reflexivity; simpl; now left. }
  simpl in Hshown. destruct Hshown as [Habs | []]. discriminate Habs.
Qed.

(** C5 (amended). [getLabEntries(labGroupId)] returns exactly the
    (possibly faculty-filtered) entries whose [labGroupId] equals the
    given identifier; and when a spanning lab slot is rendered, every
    member of each lab group with a non-empty identifier present in
    that slot is included in the cell, the group's members forming one
    fragment of the rotation shown in that block. *)
Theorem lab_groups_render_together (p : View.Props) (d : Day) (s : TimeSlot)
    (g : string) (spanning : TimetableEntry)
    (Hspanning : In spanning (View.getLabsForTimeSlot p d s))
    (Hgroup : labGroupId spanning = Some g)
    (Hid : g <> "") :
  (forall groupId member,
      In member (View.getLabEntries p groupId)
      <-> (In member (entries (View.timetable p))
           /\ (forall f, View.facultyFilter p = Some f -> f <> "" ->
                         teacherName member = Some f))
          /\ labGroupId member = Some groupId)
  /\ (exists groups,
        View.renderCellContent p d s = View.LabRotation groups
        /\ In (g, View.getLabEntries p g) groups)
  /\ (forall member,
        In member (View.viewEntries p) ->
        labGroupId member = Some g ->
        In member (View.shownEntries (View.renderCellContent p d s))).
Proof.
  destruct (@rotation_rendered p d s g spanning Hspanning Hgroup Hid)
    as [Hcell Hids].
  split; [|split].
  - intros groupId member. now rewrite getLabEntries_In, viewEntries_In.
  - eexists. split; [exact Hcell|].
    apply in_map_iff. exists g. now split.
  - intros member Hin Hg. rewrite Hcell. simpl.
    apply in_concat. exists (View.getLabEntries p g). split.
    + rewrite map_map. simpl. apply in_map_iff. exists g. now split.
    + apply getLabEntries_In. now split.
Qed.

Lemma lab_groups_render_together_witness :
  (exists groups,
      View.renderCellContent Sample.labView "Monday" "10:20-11:10"
      = View.LabRotation groups
      /\ In ("g1", View.getLabEntries Sample.labView "g1") groups)
  /\ In Sample.labBatch2
       (View.shownEntries
          (View.renderCellContent Sample.labView "Monday" "10:20-11:10")).
Proof.
  assert (In Sample.labBatch1
            (View.getLabsForTimeSlot Sample.labView "Monday" "10:20-11:10"))
    as Hspanning by (simpl; now left).
  assert ("g1" <> "") as Hid by discriminate.
  destruct (@lab_groups_render_together Sample.labView "Monday" "10:20-11:10"
              "g1" Sample.labBatch1 Hspanning eq_refl Hid)
    as (_ & Hcell & Hmembers).
  split; [exact Hcell|].
  apply Hmembers; [|reflexivity].
  simpl. right. right. now left.
Defined.

(** * Further properties of the grid *)

(** ** Shape of the grid state *)

Lemma find_app_first {A} (P : A -> bool) (l1 l2 : list A) :
  find P (l1 ++ l2)
  = match find P l1 with
    | Some x => Some x
    | None => find P l2
    end.
Proof.
  induction l1 as [|a l1 IH]; simpl; [reflexivity|].
  now destruct (P a).
Qed.

Lemma find_absent {A} (P : A -> bool) (l : list A) :
  (forall x, In x l -> P x = false) -> find P l = None.
Proof.
  induction l as [|a l IH]; simpl; intros H; [reflexivity|].
  rewrite (H a) by now left. apply IH. intros x Hx. apply H. now right.
Qed.

(** Looking for an entry of day [d] in a list made of day blocks comes
    down to looking in the block of [d]. *)
Lemma find_in_blocks (P : TimetableEntry -> bool)
    (block : Day -> list TimetableEntry) (d : Day) :
  (forall e, P e = true -> day e = d) ->
  (forall d' e, In e (block d') -> day e = d') ->
  forall ds,
    find P (flat_map block ds)
    = if JS.includes ds d then find P (block d) else None.
Proof.
  intros HP Hblock. induction ds as [|d' ds IH]; [reflexivity|].
  cbn [flat_map]. rewrite find_app_first, includes_cons, IH.
  destruct (String.eqb_spec d' d) as [-> | Hne]; cbn [orb].
  - destruct (find P (block d)); [reflexivity|].
    now destruct (JS.includes ds d).
  - rewrite find_absent; [reflexivity|].
    intros x Hx. destruct (P x) eqn:E; [|reflexivity].
    apply HP in E. apply Hblock in Hx. congruence.
Qed.

Lemma flat_map_ext_in {A B} (f g : A -> list B) (l : list A) :
  (forall a, In a l -> f a = g a) -> flat_map f l = flat_map g l.
Proof.
  induction l as [|a l IH]; intros H; [reflexivity|]. simpl.
  rewrite (H a) by now left. f_equal. apply IH. intros x Hx. apply H. now right.
Qed.

Lemma map_flat_map {A B C} (f : B -> C) (g : A -> list B) (l : list A) :
  map f (flat_map g l) = flat_map (fun a => map f (g a)) l.
Proof.
  induction l as [|a l IH]; [reflexivity|]. simpl.
  now rewrite map_app, IH.
Qed.

Section Shaped.

Variables (teach : Day -> TimeSlot -> TimetableEntry)
          (brk lun : Day -> TimetableEntry).
Hypothesis Hteach : forall d s, day (teach d s) = d /\ timeSlot (teach d s) = s.
Hypothesis Hbrk : forall d, day (brk d) = d /\ timeSlot (brk d) = breakSlot
                            /\ isBreak (brk d) = Some true.
Hypothesis Hlun : forall d, day (lun d) = d /\ timeSlot (lun d) = lunchSlot
                            /\ isLunch (lun d) = Some true.

Let block (d : Day) : list TimetableEntry :=
  (map (teach d) Grid.timeSlots ++ [brk d; lun d])%list.

Lemma shaped_block_day d e : In e (block d) -> day e = d.
Proof.
  unfold block. rewrite in_app_iff, in_map_iff.
  intros [(s & <- & _) | [<- | [<- | []]]].
  - apply Hteach.
  - apply Hbrk.
  - apply Hlun.
Qed.

Lemma atCell_teach d s d' s' :
  atCell d s (teach d' s') = (d' =? d) && (s' =? s).
Proof. unfold atCell. now destruct (Hteach d' s') as [-> ->]. Qed.

Lemma atCell_brk d s d' :
  atCell d s (brk d') = (d' =? d) && (breakSlot =? s).
Proof. unfold atCell. now destruct (Hbrk d') as (-> & -> & _). Qed.

Lemma atCell_lun d s d' :
  atCell d s (lun d') = (d' =? d) && (lunchSlot =? s).
Proof. unfold atCell. now destruct (Hlun d') as (-> & -> & _). Qed.

(** The first entry of a block at each of its nine cells. *)
Lemma block_find_teach d s :
  In s Grid.timeSlots -> find (atCell d s) (block d) = Some (teach d s).
Proof.
  intros Hs. unfold block, Grid.timeSlots in *. cbn [map app find].
  rewrite !atCell_teach, String.eqb_refl. cbn [andb].
  simpl in Hs.
  repeat (destruct Hs as [<- | Hs]; [reflexivity|]). destruct Hs.
Qed.

Lemma block_find_break d :
  find (fun e => atCell d breakSlot e && JS.truthy (isBreak e)) (block d)
  = Some (brk d).
Proof.
  unfold block, Grid.timeSlots. cbn [map app find].
  rewrite !atCell_teach, atCell_brk, String.eqb_refl.
  destruct (Hbrk d) as (_ & _ & ->). reflexivity.
Qed.

Lemma block_find_lunch d :
  find (fun e => atCell d lunchSlot e && JS.truthy (isLunch e)) (block d)
  = Some (lun d).
Proof.
  unfold block, Grid.timeSlots. cbn [map app find].
  rewrite !atCell_teach, atCell_brk, atCell_lun, String.eqb_refl.
  destruct (Hlun d) as (_ & _ & ->). reflexivity.
Qed.

Lemma block_find_cell d s :
  find (atCell d s) (block d)
  = if JS.includes Grid.timeSlots s then Some (teach d s)
    else if breakSlot =? s then Some (brk d)
    else if lunchSlot =? s then Some (lun d)
    else None.
Proof.
  unfold block, Grid.timeSlots, JS.includes. cbn [map app find existsb].
  rewrite !atCell_teach, atCell_brk, atCell_lun, String.eqb_refl.
  cbn [andb].
  repeat match goal with
         | |- context [String.eqb ?lit s] =>
             destruct (String.eqb_spec lit s) as [<- | _]; [reflexivity|]
         end.
  reflexivity.
Qed.

(** Reconciling against a shaped list gives the list back. *)
Lemma dayBlock_shaped ds d :
  In d ds -> dayBlock (flat_map block ds) d = block d.
Proof.
  intros Hd. apply includes_In in Hd.
  unfold dayBlock, keptAt, keptBreak, keptLunch.
  rewrite (@find_in_blocks
             (fun e => atCell d breakSlot e && JS.truthy (isBreak e)) block d),
          (@find_in_blocks
             (fun e => atCell d lunchSlot e && JS.truthy (isLunch e)) block d),
          Hd, block_find_break, block_find_lunch;
    try (intros e He; apply andb_true_iff in He; destruct He as [He _];
         now apply atCell_true in He);
    try (intros d' e; apply shaped_block_day).
  change (block d) with (map (teach d) Grid.timeSlots ++ [brk d; lun d])%list.
  f_equal.
  apply map_ext_in. intros s Hs.
  rewrite (@find_in_blocks (atCell d s) block d), Hd, block_find_teach;
    [reflexivity | assumption | |].
  - intros e He. now apply atCell_true in He.
  - intros d' e. apply shaped_block_day.
Qed.

Lemma reconcile_shaped ds :
  flat_map (dayBlock (flat_map block ds)) ds = flat_map block ds.
Proof.
  apply flat_map_ext_in. intros d Hd. now apply dayBlock_shaped.
Qed.

End Shaped.

Lemma initial_shaped p : GridShaped (Grid.days p) (Grid.initialEntries p).
Proof.
  exists (keptAt (Grid.existingEntries p)),
         (keptBreak (Grid.existingEntries p)),
         (keptLunch (Grid.existingEntries p)).
  split; [apply initialEntries_blocks|].
  split; [intros; apply keptAt_cell|].
  split; intros; [apply keptBreak_cell | apply keptLunch_cell].
Qed.

Lemma reload_shaped p l :
  GridShaped (Grid.days p) l ->
  Grid.initialEntries (Grid.withExisting p l) = l.
Proof.
  intros (teach & brk & lun & -> & Hteach & Hbrk & Hlun).
  rewrite initialEntries_blocks.
  change (Grid.days (Grid.withExisting p _)) with (Grid.days p).
  cbn [Grid.existingEntries Grid.withExisting].
  now apply reconcile_shaped.
Qed.

(** An update that keeps every entry at its cell and keeps the break
    and lunch flags keeps the shape. *)
Lemma shaped_map (f : TimetableEntry -> TimetableEntry) ds l :
  (forall e, day (f e) = day e /\ timeSlot (f e) = timeSlot e) ->
  (forall e, timeSlot e = breakSlot -> isBreak e = Some true ->
             isBreak (f e) = Some true) ->
  (forall e, timeSlot e = lunchSlot -> isLunch e = Some true ->
             isLunch (f e) = Some true) ->
  GridShaped ds l -> GridShaped ds (map f l).
Proof.
  intros Hcell Hb Hl (teach & brk & lun & -> & Hteach & Hbrk & Hlun).
  exists (fun d s => f (teach d s)), (fun d => f (brk d)), (fun d => f (lun d)).
  split.
  - rewrite map_flat_map. apply flat_map_ext_in. intros d _.
    now rewrite map_app, map_map.
  - split; [|split].
    + intros d s. destruct (Hcell (teach d s)) as [-> ->]. apply Hteach.
    + intros d. destruct (Hcell (brk d)) as [-> ->].
      destruct (Hbrk d) as (Hd & Hs & Hf). auto.
    + intros d. destruct (Hcell (lun d)) as [-> ->].
      destruct (Hlun d) as (Hd & Hs & Hf). auto.
Qed.

Lemma changeEntry_flags allTimetables p d s value ty entry :
  isBreak (fst (Grid.changeEntry allTimetables p d s value ty entry))
  = isBreak entry
  /\ isLunch (fst (Grid.changeEntry allTimetables p d s value ty entry))
     = isLunch entry.
Proof.
  unfold Grid.changeEntry.
  destruct (atCell d s entry); [|now split].
  destruct ty; [|now split].
  destruct (find _ (Grid.subjectTeacherPairs p)); [|now split].
  destruct (Grid.checkTeacherConflicts _ _ _ _ _); now split.
Qed.

Lemma handleCellChange_shaped allTimetables p d s value ty ds l :
  GridShaped ds l ->
  GridShaped ds (fst (Grid.handleCellChange allTimetables p d s value ty l)).
Proof.
  intros H. rewrite handleCellChange_map. apply shaped_map; [| | |exact H].
  - intros e. apply changeEntry_cell.
  - intros e _ He. now rewrite (proj1 (changeEntry_flags _ _ _ _ _ _ _)).
  - intros e _ He. now rewrite (proj2 (changeEntry_flags _ _ _ _ _ _ _)).
Qed.

Lemma clearCell_shaped d s ds l :
  s <> breakSlot -> s <> lunchSlot ->
  GridShaped ds l -> GridShaped ds (Grid.clearCell d s l).
Proof.
  intros Hnb Hnl H. unfold Grid.clearCell. apply shaped_map; [| | |exact H].
  - intros e. apply clearEntry_cell.
  - intros e Hs He. destruct (atCell d s e) eqn:E; [|assumption].
    apply atCell_true in E. destruct E as [_ E]. congruence.
  - intros e Hs He. destruct (atCell d s e) eqn:E; [|assumption].
    apply atCell_true in E. destruct E as [_ E]. congruence.
Qed.

(** In a shaped list an entry on the break row is flagged as break and
    an entry on the lunch row is flagged as break or lunch. *)
Lemma shaped_rows ds l e :
  GridShaped ds l -> In e l ->
  (timeSlot e = breakSlot -> isBreak e = Some true)
  /\ (timeSlot e = lunchSlot ->
      isBreak e = Some true \/ isLunch e = Some true).
Proof.
  intros (teach & brk & lun & -> & Hteach & Hbrk & Hlun) Hin.
  apply in_flat_map in Hin. destruct Hin as (d & _ & Hin).
  rewrite in_app_iff, in_map_iff in Hin.
  destruct Hin as [(s & <- & Hs) | [<- | [<- | []]]].
  - destruct (Hteach d s) as [_ ->].
    split; intros ->; simpl in Hs; exfalso;
      repeat (destruct Hs as [Hs | Hs]; [discriminate Hs|]); exact Hs.
  - destruct (Hbrk d) as (_ & _ & ->). split; auto.
  - destruct (Hlun d) as (_ & -> & ->). split; [discriminate | auto].
Qed.

Lemma dayBlock_length existing d : List.length (dayBlock existing d) = 9.
Proof. reflexivity. Qed.

Lemma blocks_length existing ds :
  List.length (flat_map (dayBlock existing) ds) = 9 * List.length ds.
Proof.
  induction ds as [|d ds IH]; [reflexivity|].
  cbn [flat_map]. rewrite length_app, dayBlock_length, IH. simpl. lia.
Qed.

(** X1. The initial grid holds nine entries per visible day; the save
    callback is therefore skipped exactly when no day is visible. *)
Theorem initialEntries_size :
  forall p : Grid.Props,
    List.length (Grid.initialEntries p) = 9 * List.length (Grid.days p)
    /\ (Grid.saveEffect (Grid.initialEntries p) = None <-> Grid.days p = []).
Proof.
  intros p. rewrite initialEntries_blocks.
  pose proof (blocks_length (Grid.existingEntries p) (Grid.days p)) as Hlen.
  split; [exact Hlen|].
  destruct (Grid.days p) as [|d ds].
  - split; reflexivity.
  - split; [|discriminate].
    destruct (flat_map (dayBlock (Grid.existingEntries p)) (d :: ds)).
    + cbn [List.length] in Hlen. lia.
    + discriminate.
Qed.

(** X2. Handing a grid-shaped entry list back as [existingEntries]
    (same year and day options) reproduces it entry for entry. *)
Theorem reload_reproduces_grid (p : Grid.Props) (l : list TimetableEntry)
    (Hshape : GridShaped (Grid.days p) l) :
  Grid.initialEntries (Grid.withExisting p l) = l.
Proof.
  now apply reload_shaped.
Qed.

Lemma reload_reproduces_grid_witness :
  Grid.initialEntries
    (Grid.withExisting Sample.props
       (fst (Grid.handleCellChange Sample.stored Sample.props
               "Monday" "10:20-11:10" "s2|Iyer" Grid.subject
               (Grid.initialEntries Sample.props))))
  = fst (Grid.handleCellChange Sample.stored Sample.props
           "Monday" "10:20-11:10" "s2|Iyer" Grid.subject
           (Grid.initialEntries Sample.props)).
Proof.
  apply reload_reproduces_grid.
  apply handleCellChange_shaped, initial_shaped.
Defined.

(** X3. Initialisation is stable: the initial grid is grid-shaped, and
    initialising again from it changes nothing. *)
Theorem initialEntries_stable :
  forall p : Grid.Props,
    GridShaped (Grid.days p) (Grid.initialEntries p)
    /\ Grid.initialEntries (Grid.withExisting p (Grid.initialEntries p))
       = Grid.initialEntries p.
Proof.
  intros p. split; [apply initial_shaped|].
  apply reload_shaped, initial_shaped.
Qed.

Lemma fixed_rows_no_control p ds l d s :
  GridShaped ds l ->
  s = breakSlot \/ s = lunchSlot ->
  Grid.actions (Grid.getCellContent p l d s) = [].
Proof.
  intros Hshape Hs. unfold Grid.getCellContent.
  destruct (find (atCell d s) l) as [e|] eqn:E; [|reflexivity].
  apply find_some in E. destruct E as [Hin Hcell].
  apply atCell_true in Hcell. destruct Hcell as [_ Hslot].
  destruct (@shaped_rows ds l e Hshape Hin) as [Hb Hl].
  destruct Hs as [-> | ->].
  - rewrite (Hb Hslot). reflexivity.
  - destruct (Hl Hslot) as [-> | Hlunch]; [reflexivity|].
    rewrite Hlunch. now destruct (JS.truthy (isBreak e)).
Qed.

(** X4. Whatever control of whatever cell the user operates, a
    grid-shaped entry list stays grid-shaped; the break and lunch cells
    carry no control at all. *)
Theorem ui_actions_keep_shape (allTimetables : list Timetable)
    (p : Grid.Props) (ds : list Day) (l : list TimetableEntry)
    (d : Day) (s : TimeSlot) (a : Grid.Action)
    (Hshape : GridShaped ds l)
    (Hoffered : In a (Grid.actions (Grid.getCellContent p l d s))) :
  GridShaped ds (Grid.dispatch allTimetables p d s a l)
  /\ Grid.actions (Grid.getCellContent p l d "11:10-11:20") = []
  /\ Grid.actions (Grid.getCellContent p l d "1:00-2:00") = [].
Proof.
  split.
  - destruct a; simpl.
    + now apply handleCellChange_shaped.
    + now apply handleCellChange_shaped.
    + apply clearCell_shaped; [| |assumption]; intros ->;
        rewrite (@fixed_rows_no_control p ds l d) in Hoffered; auto.
  - split; apply (@fixed_rows_no_control p ds l d); auto.
Qed.

Lemma ui_actions_keep_shape_witness :
  GridShaped ["Monday"; "Wednesday"]
    (Grid.dispatch Sample.stored Sample.props "Monday" "10:20-11:10"
       (Grid.SelectSubject "s2|Iyer") (Grid.initialEntries Sample.props))
  /\ Grid.actions
       (Grid.getCellContent Sample.props (Grid.initialEntries Sample.props)
          "Monday" "11:10-11:20") = []
  /\ Grid.actions
       (Grid.getCellContent Sample.props (Grid.initialEntries Sample.props)
          "Monday" "1:00-2:00") = [].
Proof.
  apply (@ui_actions_keep_shape Sample.stored Sample.props
           ["Monday"; "Wednesday"] (Grid.initialEntries Sample.props)
           "Monday" "10:20-11:10" (Grid.SelectSubject "s2|Iyer")).
  - exact (initial_shaped Sample.props).
  - simpl. right. now left.
Defined.

(** ** Choosing a subject *)


Lemma split_head_clean sep s :
  hasChar sep (hd EmptyString (JS.split sep s)) = false.
Proof.
  induction s as [|c s IH]; simpl; [reflexivity|].
  destruct (Ascii.eqb c sep) eqn:E; [reflexivity|].
  destruct (JS.split sep s) as [|piece pieces]; simpl in *.
  - now rewrite E.
  - now rewrite E, IH.
Qed.


Example piped_id_not_found :
  Grid.subjectIdOf
    (Grid.optionValue {| id := "a|b"; pairSubjectName := "Maths";
                         pairTeacherName := "Rao"; pairIsLab := None;
                         pairBatchNumber := None |}) = "a".
Proof. reflexivity. Qed.



(** X6. The id looked up by [handleCellChange] never contains '|': a
    subject whose id contains one is never found, whatever value is
    selected. *)
Theorem looked_up_id_has_no_pipe :
  forall (p : Grid.Props) (value : string) (subj : SubjectTeacherPair),
    hasChar "|"%char (Grid.subjectIdOf value) = false
    /\ (find (fun s0 => id s0 =? Grid.subjectIdOf value)
             (Grid.subjectTeacherPairs p) = Some subj ->
        hasChar "|"%char (id subj) = false).
Proof.
  intros p value subj.
  assert (hasChar "|"%char (Grid.subjectIdOf value) = false) as H
    by apply split_head_clean.
  split; [exact H|].
  intros Hfound. apply find_some in Hfound. destruct Hfound as [_ E].
  apply String.eqb_eq in E. now rewrite E.
Qed.

Lemma looked_up_id_has_no_pipe_witness :
  hasChar "|"%char (Grid.subjectIdOf "s2|Iyer") = false
  /\ hasChar "|"%char (id Sample.physics) = false.
Proof.
  destruct (looked_up_id_has_no_pipe Sample.props "s2|Iyer" Sample.physics)
    as [H1 H2].
  split; [exact H1|]. apply H2. reflexivity.
Defined.

(** ** Effect of an edit on the targeted cell *)

Lemma checkTeacherConflicts_false allTimetables p d s teacher :
  ~ BookedElsewhere allTimetables p d s teacher ->
  Grid.checkTeacherConflicts allTimetables p d s teacher = false.
Proof.
  intros H. unfold Grid.checkTeacherConflicts.
  destruct (Grid.scanTimetables p d s teacher allTimetables) eqn:E;
    [|reflexivity].
  apply scanTimetables_true in E. contradiction.
Qed.

Lemma no_toast_concat {A B} (f : A -> B * list Grid.Toast) (l : list A) :
  (forall x, snd (f x) = []) ->
  List.concat (map snd (map f l)) = [].
Proof.
  intros H. induction l as [|x l IH]; [reflexivity|].
  simpl. now rewrite H, IH.
Qed.

(** X7. An accepted assignment (subject found, teacher not booked
    elsewhere) gives every entry at the target cell the subject's name,
    teacher, lab flag and batch, marks it not free, keeps its other
    fields, and raises no toast. *)
Theorem assignment_sets_subject (allTimetables : list Timetable)
    (p : Grid.Props) (d : Day) (s : TimeSlot) (value : string)
    (subj : SubjectTeacherPair) (l : list TimetableEntry)
    (i : nat) (entry : TimetableEntry)
    (Hfound : find (fun s0 => id s0 =? Grid.subjectIdOf value)
                   (Grid.subjectTeacherPairs p) = Some subj)
    (Hfree : ~ BookedElsewhere allTimetables p d s (pairTeacherName subj))
    (Hentry : nth_error l i = Some entry)
    (Hcell : day entry = d /\ timeSlot entry = s) :
  nth_error (fst (Grid.handleCellChange allTimetables p d s value Grid.subject l)) i
  = Some {| day := day entry; timeSlot := timeSlot entry;
            subjectName := Some (pairSubjectName subj);
            teacherName := Some (pairTeacherName subj);
            isLab := pairIsLab subj;
            batchNumber := pairBatchNumber subj;
            isFree := Some false;
            freeType := None;
            customFreeType := customFreeType entry;
            isBreak := isBreak entry; isLunch := isLunch entry;
            labGroupId := labGroupId entry;
            isLabGroup := isLabGroup entry |}
  /\ snd (Grid.handleCellChange allTimetables p d s value Grid.subject l) = [].
Proof.
  apply checkTeacherConflicts_false in Hfree.
  split.
  - rewrite handleCellChange_map, nth_error_map, Hentry. simpl.
    unfold Grid.changeEntry.
    rewrite (proj2 (atCell_true d s entry) Hcell), Hfound, Hfree. reflexivity.
  - unfold Grid.handleCellChange. cbv zeta. cbn [snd].
    apply no_toast_concat. intros e. unfold Grid.changeEntry.
    rewrite Hfound, Hfree. now destruct (atCell d s e).
Qed.

Lemma assignment_sets_subject_witness :
  nth_error
    (fst (Grid.handleCellChange Sample.stored Sample.props
            "Monday" "9:30-10:20" "s2|Iyer" Grid.subject
            (Grid.initialEntries Sample.props))) 0
  = Some {| day := "Monday"; timeSlot := "9:30-10:20";
            subjectName := Some "Physics"; teacherName := Some "Iyer";
            isLab := Some false; batchNumber := None; isFree := Some false;
            freeType := None; customFreeType := None; isBreak := None;
            isLunch := None; labGroupId := None; isLabGroup := None |}
  /\ snd (Grid.handleCellChange Sample.stored Sample.props
            "Monday" "9:30-10:20" "s2|Iyer" Grid.subject
            (Grid.initialEntries Sample.props)) = [].
Proof.
  apply (@assignment_sets_subject Sample.stored Sample.props
           "Monday" "9:30-10:20" "s2|Iyer" Sample.physics
           (Grid.initialEntries Sample.props) 0 Sample.savedMaths).
  - reflexivity.
  - intros H. apply scanTimetables_true in H. discriminate H.
  - reflexivity.
  - split; reflexivity.
Defined.

(** X8. Selecting a value whose id matches no listed subject changes
    nothing and raises no toast. *)
Theorem unknown_subject_is_ignored (allTimetables : list Timetable)
    (p : Grid.Props) (d : Day) (s : TimeSlot) (value : string)
    (l : list TimetableEntry)
    (Hunknown : forall subj, In subj (Grid.subjectTeacherPairs p) ->
                             id subj <> Grid.subjectIdOf value) :
  Grid.handleCellChange allTimetables p d s value Grid.subject l = (l, []).
Proof.
  assert (find (fun s0 => id s0 =? Grid.subjectIdOf value)
               (Grid.subjectTeacherPairs p) = None) as Hnone.
  { apply find_absent. intros x Hx. apply String.eqb_neq. now apply Hunknown. }
  assert (forall e, Grid.changeEntry allTimetables p d s value Grid.subject e
                    = (e, [])) as Hstep.
  { intros e. unfold Grid.changeEntry. rewrite Hnone.
    now destruct (atCell d s e). }
  unfold Grid.handleCellChange. cbv zeta. f_equal.
  - rewrite map_map. rewrite <- (map_id l) at 2. apply map_ext.
    intros e. now rewrite Hstep.
  - apply no_toast_concat. intros e. now rewrite Hstep.
Qed.

Lemma unknown_subject_is_ignored_witness :
  Grid.handleCellChange Sample.stored Sample.props
    "Monday" "9:30-10:20" "no-subjects-available" Grid.subject
    (Grid.initialEntries Sample.props)
  = (Grid.initialEntries Sample.props, []).
Proof.
  apply unknown_subject_is_ignored.
  simpl. intros subj [<- | [<- | []]]; discriminate.
Defined.

(** X9. Marking a cell free never raises a toast; every entry at the
    target cell loses its subject, teacher and batch, becomes a
    non-lab free period of the selected type, and keeps its other
    fields. *)
Theorem free_assignment (allTimetables : list Timetable)
    (p : Grid.Props) (d : Day) (s : TimeSlot) (value : string)
    (l : list TimetableEntry) :
  snd (Grid.handleCellChange allTimetables p d s value Grid.free l) = []
  /\ forall i entry,
       nth_error l i = Some entry ->
       day entry = d -> timeSlot entry = s ->
       nth_error
         (fst (Grid.handleCellChange allTimetables p d s value Grid.free l)) i
       = Some {| day := day entry; timeSlot := timeSlot entry;
                 subjectName := None; teacherName := None;
                 isLab := Some false; batchNumber := None;
                 isFree := Some true; freeType := Some value;
                 customFreeType := customFreeType entry;
                 isBreak := isBreak entry; isLunch := isLunch entry;
                 labGroupId := labGroupId entry;
                 isLabGroup := isLabGroup entry |}.
Proof.
  split.
  - unfold Grid.handleCellChange. cbv zeta. cbn [snd].
    apply no_toast_concat. intros e. unfold Grid.changeEntry.
    now destruct (atCell d s e).
  - intros i entry Hi Hd Hs.
    rewrite handleCellChange_map, nth_error_map, Hi. simpl.
    unfold Grid.changeEntry.
    now rewrite (proj2 (atCell_true d s entry) (conj Hd Hs)).
Qed.

Lemma free_assignment_witness :
  nth_error
    (fst (Grid.handleCellChange Sample.stored Sample.props
            "Monday" "9:30-10:20" "Library" Grid.free
            (Grid.initialEntries Sample.props))) 0
  = Some {| day := "Monday"; timeSlot := "9:30-10:20";
            subjectName := None; teacherName := None;
            isLab := Some false; batchNumber := None;
            isFree := Some true; freeType := Some "Library";
            customFreeType := None; isBreak := None; isLunch := None;
            labGroupId := None; isLabGroup := None |}.
Proof.
  apply (proj2 (free_assignment Sample.stored Sample.props
                  "Monday" "9:30-10:20" "Library"
                  (Grid.initialEntries Sample.props)) 0 Sample.savedMaths);
    reflexivity.
Defined.

Lemma conflict_toasts_count allTimetables p d s value subj l :
  find (fun s0 => id s0 =? Grid.subjectIdOf value)
       (Grid.subjectTeacherPairs p) = Some subj ->
  Grid.checkTeacherConflicts allTimetables p d s (pairTeacherName subj) = true ->
  List.concat
    (map snd (map (Grid.changeEntry allTimetables p d s value Grid.subject) l))
  = repeat (Grid.conflictToast (pairTeacherName subj)) (cellCount d s l).
Proof.
  intros Hfound Hbooked. unfold cellCount.
  induction l as [|e l IH]; [reflexivity|].
  simpl. rewrite IH. unfold Grid.changeEntry at 1.
  rewrite Hfound, Hbooked. now destruct (atCell d s e).
Qed.

(** X10. A rejected assignment raises the conflict toast once per entry
    at the target cell: none at all when the cell holds no entry. *)
Theorem conflict_toasts (allTimetables : list Timetable)
    (p : Grid.Props) (d : Day) (s : TimeSlot) (value : string)
    (subj : SubjectTeacherPair) (l : list TimetableEntry)
    (Hfound : find (fun s0 => id s0 =? Grid.subjectIdOf value)
                   (Grid.subjectTeacherPairs p) = Some subj)
    (Hbooked : BookedElsewhere allTimetables p d s (pairTeacherName subj)) :
  snd (Grid.handleCellChange allTimetables p d s value Grid.subject l)
  = repeat
      {| Grid.title := "Scheduling Conflict";
         Grid.description :=
           pairTeacherName subj
           ++ " already has a class scheduled at this time slot in another class.";
         Grid.variant := "destructive" |}
      (cellCount d s l).
Proof.
  unfold Grid.handleCellChange. cbv zeta. cbn [snd].
  apply conflict_toasts_count; [assumption|].
  unfold Grid.checkTeacherConflicts. now apply scanTimetables_true.
Qed.

Lemma conflict_toasts_witness :
  snd (Grid.handleCellChange Sample.stored Sample.props
         "Monday" "9:30-10:20" "s1|Rao" Grid.subject
         (Grid.initialEntries Sample.props))
  = [{| Grid.title := "Scheduling Conflict";
        Grid.description :=
          "Rao already has a class scheduled at this time slot in another class.";
        Grid.variant := "destructive" |}].
Proof.
  apply (@conflict_toasts Sample.stored Sample.props
           "Monday" "9:30-10:20" "s1|Rao" Sample.maths
           (Grid.initialEntries Sample.props)).
  - reflexivity.
  - apply scanTimetables_true. reflexivity.
Defined.

(** ** How edits compose *)

Lemma dispatch_map allTimetables p d s a l :
  Grid.dispatch allTimetables p d s a l
  = map (stepEntry allTimetables p d s a) l.
Proof.
  destruct a; simpl; try apply handleCellChange_map. reflexivity.
Qed.

Lemma stepEntry_cell allTimetables p d s a e :
  day (stepEntry allTimetables p d s a e) = day e
  /\ timeSlot (stepEntry allTimetables p d s a e) = timeSlot e.
Proof.
  destruct a; simpl; try apply changeEntry_cell. apply clearEntry_cell.
Qed.

Lemma stepEntry_atCell allTimetables p d s a d' s' e :
  atCell d' s' (stepEntry allTimetables p d s a e) = atCell d' s' e.
Proof.
  unfold atCell. now destruct (stepEntry_cell allTimetables p d s a e) as [-> ->].
Qed.

Lemma stepEntry_elsewhere allTimetables p d s a e :
  atCell d s e = false -> stepEntry allTimetables p d s a e = e.
Proof.
  intros H. destruct a; simpl.
  - now rewrite changeEntry_elsewhere.
  - now rewrite changeEntry_elsewhere.
  - now rewrite H.
Qed.


(** X11. Clearing a cell after any other action on the same cell gives
    the same entry list as clearing it straight away. *)
Theorem clear_absorbs_action :
  forall (allTimetables : list Timetable) (p : Grid.Props)
         (d : Day) (s : TimeSlot) (a : Grid.Action)
         (l : list TimetableEntry),
    Grid.clearCell d s (Grid.dispatch allTimetables p d s a l)
    = Grid.clearCell d s l.
Proof.
  intros. rewrite dispatch_map. unfold Grid.clearCell.
  rewrite map_map. apply map_ext. intros e.
  rewrite stepEntry_atCell.
  destruct (atCell d s e) eqn:E; [reflexivity|].
  now apply stepEntry_elsewhere.
Qed.



(** X13. Actions on two different cells commute. *)
Theorem actions_on_distinct_cells_commute (allTimetables : list Timetable)
    (p : Grid.Props) (d1 d2 : Day) (s1 s2 : TimeSlot)
    (a1 a2 : Grid.Action) (l : list TimetableEntry)
    (Hdistinct : d1 <> d2 \/ s1 <> s2) :
  Grid.dispatch allTimetables p d1 s1 a1
    (Grid.dispatch allTimetables p d2 s2 a2 l)
  = Grid.dispatch allTimetables p d2 s2 a2
      (Grid.dispatch allTimetables p d1 s1 a1 l).
Proof.
  rewrite !dispatch_map, !map_map. apply map_ext. intros e.
  destruct (atCell d1 s1 e) eqn:E1.
  - assert (atCell d2 s2 e = false) as E2.
    { apply atCell_true in E1. destruct E1 as [<- <-].
      apply atCell_false. destruct Hdistinct; auto. }
    rewrite (@stepEntry_elsewhere allTimetables p d2 s2 a2 e E2).
    symmetry. apply stepEntry_elsewhere. now rewrite stepEntry_atCell.
  - rewrite (@stepEntry_elsewhere allTimetables p d1 s1 a1 e E1).
    apply stepEntry_elsewhere. now rewrite stepEntry_atCell.
Qed.

Lemma actions_on_distinct_cells_commute_witness :
  Grid.dispatch Sample.stored Sample.props "Monday" "9:30-10:20" Grid.PressClear
    (Grid.dispatch Sample.stored Sample.props "Monday" "10:20-11:10"
       (Grid.SelectSubject "s2|Iyer") (Grid.initialEntries Sample.props))
  = Grid.dispatch Sample.stored Sample.props "Monday" "10:20-11:10"
      (Grid.SelectSubject "s2|Iyer")
      (Grid.dispatch Sample.stored Sample.props "Monday" "9:30-10:20"
         Grid.PressClear (Grid.initialEntries Sample.props)).
Proof.
  apply actions_on_distinct_cells_commute.
  right. discriminate.
Defined.

(** ** What the grid shows *)

Lemma find_map_cell (f : TimetableEntry -> TimetableEntry) d s l :
  (forall e, atCell d s (f e) = atCell d s e) ->
  find (atCell d s) (map f l) = option_map f (find (atCell d s) l).
Proof.
  intros Hf. induction l as [|e l IH]; [reflexivity|].
  simpl. rewrite Hf. now destruct (atCell d s e).
Qed.

Lemma find_dispatch allTimetables p d s a d' s' l :
  find (atCell d' s') (Grid.dispatch allTimetables p d s a l)
  = option_map (stepEntry allTimetables p d s a) (find (atCell d' s') l).
Proof.
  rewrite dispatch_map. apply find_map_cell.
  intros e. apply stepEntry_atCell.
Qed.

(** X14. After Clear, the cell shows the editor with both drop-downs,
    whatever it showed before; a cell without entry stays empty. *)
Theorem cleared_cell_shows_editor :
  forall (p : Grid.Props) (d : Day) (s : TimeSlot) (l : list TimetableEntry),
    Grid.getCellContent p (Grid.clearCell d s l) d s
    = match find (atCell d s) l with
      | Some _ => Grid.Editor (Grid.subjectItems p) (Grid.freeItems p)
      | None => Grid.NoCell
      end.
Proof.
  intros p d s l. unfold Grid.getCellContent, Grid.clearCell.
  rewrite find_map_cell by (intros e; apply (@stepEntry_atCell [] p d s Grid.PressClear)).
  destruct (find (atCell d s) l) as [e|] eqn:E; [|reflexivity].
  apply find_some in E. destruct E as [_ E]. simpl. now rewrite E.
Qed.

(** X15. An action on one cell leaves what every other cell shows
    unchanged. *)
Theorem other_cells_render_same (allTimetables : list Timetable)
    (p : Grid.Props) (d d' : Day) (s s' : TimeSlot) (a : Grid.Action)
    (l : list TimetableEntry)
    (Hother : d' <> d \/ s' <> s) :
  Grid.getCellContent p (Grid.dispatch allTimetables p d s a l) d' s'
  = Grid.getCellContent p l d' s'.
Proof.
  unfold Grid.getCellContent. rewrite find_dispatch.
  destruct (find (atCell d' s') l) as [e|] eqn:E; [|reflexivity].
  apply find_some in E. destruct E as [_ E]. apply atCell_true in E.
  destruct E as [<- <-]. simpl.
  now rewrite stepEntry_elsewhere by now apply atCell_false.
Qed.

Lemma other_cells_render_same_witness :
  Grid.getCellContent Sample.props
    (Grid.dispatch Sample.stored Sample.props "Monday" "10:20-11:10"
       (Grid.SelectSubject "s2|Iyer") (Grid.initialEntries Sample.props))
    "Monday" "9:30-10:20"
  = Grid.getCellContent Sample.props (Grid.initialEntries Sample.props)
      "Monday" "9:30-10:20".
Proof.
  apply other_cells_render_same. right. discriminate.
Defined.

(** X16. After an accepted assignment of a subject with a non-empty
    name to a cell whose entry is neither a break nor a lunch, the cell
    shows the subject card: the subject's name and teacher, lab styling
    for a lab, and the batch line only for a lab with a batch. *)
Theorem assigned_cell_shows_subject (allTimetables : list Timetable)
    (p : Grid.Props) (d : Day) (s : TimeSlot) (value : string)
    (subj : SubjectTeacherPair) (l : list TimetableEntry)
    (entry : TimetableEntry)
    (Hfound : find (fun s0 => id s0 =? Grid.subjectIdOf value)
                   (Grid.subjectTeacherPairs p) = Some subj)
    (Hfree : ~ BookedElsewhere allTimetables p d s (pairTeacherName subj))
    (Hnamed : pairSubjectName subj <> "")
    (Hentry : find (atCell d s) l = Some entry)
    (Hplain : isBreak entry <> Some true /\ isLunch entry <> Some true) :
  Grid.getCellContent p
    (fst (Grid.handleCellChange allTimetables p d s value Grid.subject l)) d s
  = Grid.SubjectCard (Some (pairSubjectName subj)) (Some (pairTeacherName subj))
      (JS.truthy (pairIsLab subj))
      (if JS.truthy (pairIsLab subj) && JS.truthyStr (pairBatchNumber subj)
       then pairBatchNumber subj else None).
Proof.
  apply checkTeacherConflicts_false in Hfree.
  change (fst (Grid.handleCellChange allTimetables p d s value Grid.subject l))
    with (Grid.dispatch allTimetables p d s (Grid.SelectSubject value) l).
  unfold Grid.getCellContent. rewrite find_dispatch, Hentry. simpl.
  apply find_some in Hentry. destruct Hentry as [_ Hcell].
  unfold Grid.changeEntry. rewrite Hcell, Hfound, Hfree. simpl.
  destruct Hplain as [Hb Hl].
  assert (JS.truthy (isBreak entry) = false) as ->.
  { destruct (JS.truthy (isBreak entry)) eqn:E; [|reflexivity].
    apply truthy_true in E. contradiction. }
  assert (JS.truthy (isLunch entry) = false) as ->.
  { destruct (JS.truthy (isLunch entry)) eqn:E; [|reflexivity].
    apply truthy_true in E. contradiction. }
  apply String.eqb_neq in Hnamed. now rewrite Hnamed.
Qed.

Lemma assigned_cell_shows_subject_witness :
  Grid.getCellContent Sample.props
    (fst (Grid.handleCellChange Sample.stored Sample.props
            "Monday" "10:20-11:10" "s2|Iyer" Grid.subject
            (Grid.initialEntries Sample.props)))
    "Monday" "10:20-11:10"
  = Grid.SubjectCard (Some "Physics") (Some "Iyer") false None.
Proof.
  apply (@assigned_cell_shows_subject Sample.stored Sample.props
           "Monday" "10:20-11:10" "s2|Iyer" Sample.physics
           (Grid.initialEntries Sample.props)
           (bareEntry "Monday" "10:20-11:10")).
  - reflexivity.
  - intros H. apply scanTimetables_true in H. discriminate H.
  - discriminate.
  - reflexivity.
  - split; discriminate.
Defined.

Lemma shown_entry_not_empty p entry :
  (if JS.truthy (isBreak entry) then Grid.BreakLabel
   else if JS.truthy (isLunch entry) then Grid.LunchLabel
   else if JS.truthyStr (subjectName entry) then
     Grid.SubjectCard (subjectName entry) (teacherName entry)
       (JS.truthy (isLab entry))
       (if JS.truthy (isLab entry) && JS.truthyStr (batchNumber entry)
        then batchNumber entry else None)
   else if JS.truthy (isFree entry) && JS.truthyStr (freeType entry) then
     Grid.FreeCard (freeType entry)
   else Grid.Editor (Grid.subjectItems p) (Grid.freeItems p))
  <> Grid.NoCell.
Proof.
  destruct (JS.truthy (isBreak entry)); [discriminate|].
  destruct (JS.truthy (isLunch entry)); [discriminate|].
  destruct (JS.truthyStr (subjectName entry)); [discriminate|].
  destruct (JS.truthy (isFree entry) && JS.truthyStr (freeType entry));
    discriminate.
Qed.

Lemma find_shaped_cell teach brk lun ds d s :
  (forall d s, day (teach d s) = d /\ timeSlot (teach d s) = s) ->
  (forall d, day (brk d) = d /\ timeSlot (brk d) = breakSlot
             /\ isBreak (brk d) = Some true) ->
  (forall d, day (lun d) = d /\ timeSlot (lun d) = lunchSlot
             /\ isLunch (lun d) = Some true) ->
  find (atCell d s)
       (flat_map (fun d => map (teach d) Grid.timeSlots ++ [brk d; lun d])%list ds)
  = if JS.includes ds d then
      if JS.includes Grid.timeSlots s then Some (teach d s)
      else if breakSlot =? s then Some (brk d)
      else if lunchSlot =? s then Some (lun d)
      else None
    else None.
Proof.
  intros Hteach Hbrk Hlun.
  rewrite (@find_in_blocks (atCell d s) _ d).
  - now rewrite (@block_find_cell teach brk lun Hteach Hbrk Hlun).
  - intros e He. now apply atCell_true in He.
  - intros d' e. now apply shaped_block_day.
Qed.

(** X17. In a grid-shaped entry list every cell of a visible day, on
    each of the nine rows, shows something; the break row shows
    'Break'; and a cell of a day that is not visible shows nothing. *)
Theorem grid_cells_present (p : Grid.Props) (ds : list Day)
    (l : list TimetableEntry) (d : Day) (s : TimeSlot)
    (Hshape : GridShaped ds l) :
  (In d ds -> In s gridSlots -> Grid.getCellContent p l d s <> Grid.NoCell)
  /\ (In d ds -> Grid.getCellContent p l d "11:10-11:20" = Grid.BreakLabel)
  /\ (~ In d ds -> Grid.getCellContent p l d s = Grid.NoCell).
Proof.
  destruct Hshape as (teach & brk & lun & -> & Hteach & Hbrk & Hlun).
  unfold Grid.getCellContent.
  rewrite !(@find_shaped_cell teach brk lun ds d) by assumption.
  split; [|split].
  - intros Hd Hs Habs. apply includes_In in Hd. rewrite Hd in Habs.
    unfold gridSlots in Hs. apply in_app_iff in Hs.
    destruct Hs as [Hs | [<- | [<- | []]]].
    + apply includes_In in Hs. rewrite Hs in Habs.
      now apply shown_entry_not_empty in Habs.
    + simpl in Habs. now apply shown_entry_not_empty in Habs.
    + simpl in Habs. now apply shown_entry_not_empty in Habs.
  - intros Hd. apply includes_In in Hd. rewrite Hd. simpl.
    now destruct (Hbrk d) as (_ & _ & ->).
  - intros Hd. destruct (JS.includes ds d) eqn:E; [|reflexivity].
    apply includes_In in E. contradiction.
Qed.

Lemma grid_cells_present_witness :
  Grid.getCellContent Sample.props (Grid.initialEntries Sample.props)
    "Monday" "2:00-2:50" <> Grid.NoCell
  /\ Grid.getCellContent Sample.props (Grid.initialEntries Sample.props)
       "Monday" "11:10-11:20" = Grid.BreakLabel
  /\ Grid.getCellContent Sample.props (Grid.initialEntries Sample.props)
       "Friday" "9:30-10:20" = Grid.NoCell.
Proof.
  destruct (@grid_cells_present Sample.props ["Monday"; "Wednesday"]
              (Grid.initialEntries Sample.props) "Monday" "2:00-2:50"
              (initial_shaped Sample.props)) as (H1 & H2 & _).
  destruct (@grid_cells_present Sample.props ["Monday"; "Wednesday"]
              (Grid.initialEntries Sample.props) "Friday" "9:30-10:20"
              (initial_shaped Sample.props)) as (_ & _ & H3).
  split; [|split].
  - apply H1; simpl; auto 10.
  - apply H2. simpl. auto.
  - apply H3. simpl. intros [H | [H | []]]; discriminate H.
Defined.

(** X18. A grid initialised without existing entries shows the editor
    in every teaching cell of every visible day, 'Break' on the break
    row and 'Lunch' on the lunch row. *)
Theorem blank_grid_cells (p : Grid.Props) (d : Day)
    (Hblank : Grid.existingEntries p = [])
    (Hvisible : In d (Grid.days p)) :
  (forall s, In s Grid.timeSlots ->
             Grid.getCellContent p (Grid.initialEntries p) d s
             = Grid.Editor (Grid.subjectItems p) (Grid.freeItems p))
  /\ Grid.getCellContent p (Grid.initialEntries p) d "11:10-11:20"
     = Grid.BreakLabel
  /\ Grid.getCellContent p (Grid.initialEntries p) d "1:00-2:00"
     = Grid.LunchLabel.
Proof.
  apply includes_In in Hvisible.
  rewrite initialEntries_blocks, Hblank. unfold Grid.getCellContent, dayBlock.
  split; [|split].
  - intros s Hs. apply includes_In in Hs.
    rewrite (@find_shaped_cell (keptAt []) (keptBreak []) (keptLunch []))
      by (intros; first [apply keptAt_cell | apply keptBreak_cell
                        | apply keptLunch_cell]).
    now rewrite Hvisible, Hs.
  - rewrite (@find_shaped_cell (keptAt []) (keptBreak []) (keptLunch []))
      by (intros; first [apply keptAt_cell | apply keptBreak_cell
                        | apply keptLunch_cell]).
    now rewrite Hvisible.
  - rewrite (@find_shaped_cell (keptAt []) (keptBreak []) (keptLunch []))
      by (intros; first [apply keptAt_cell | apply keptBreak_cell
                        | apply keptLunch_cell]).
    now rewrite Hvisible.
Qed.

Lemma blank_grid_cells_witness :
  (forall s, In s Grid.timeSlots ->
             Grid.getCellContent Sample.repeatedDays
               (Grid.initialEntries Sample.repeatedDays) "Monday" s
             = Grid.Editor (Grid.subjectItems Sample.repeatedDays)
                           (Grid.freeItems Sample.repeatedDays))
  /\ Grid.getCellContent Sample.repeatedDays
       (Grid.initialEntries Sample.repeatedDays) "Monday" "11:10-11:20"
     = Grid.BreakLabel
  /\ Grid.getCellContent Sample.repeatedDays
       (Grid.initialEntries Sample.repeatedDays) "Monday" "1:00-2:00"
     = Grid.LunchLabel.
Proof.
  apply (@blank_grid_cells Sample.repeatedDays "Monday").
  - reflexivity.
  - simpl. now left.
Defined.

(** * Further properties of the view *)


Lemma rotation_shown p ids e :
  In e (View.shownEntries
          (View.LabRotation
             (map (fun groupId => (groupId, View.getLabEntries p groupId)) ids))) ->
  exists g, In g ids /\ In e (View.getLabEntries p g).
Proof.
  simpl. rewrite map_map. simpl. intros H.
  apply in_concat in H. destruct H as (es & Hes & He).
  apply in_map_iff in Hes. destruct Hes as (g & <- & Hg). now exists g.
Qed.

(** Case analysis of [renderCellContent], branch by branch. *)
Lemma renderCellContent_cases p d s :
  (s = breakSlot /\ View.renderCellContent p d s = View.Break)
  \/ (s = lunchSlot /\ View.renderCellContent p d s = View.Lunch)
  \/ (View.getLabsForTimeSlot p d s <> []
      /\ View.labGroupIds (View.getLabsForTimeSlot p d s) <> []
      /\ View.renderCellContent p d s
         = View.LabRotation
             (map (fun groupId => (groupId, View.getLabEntries p groupId))
                  (View.labGroupIds (View.getLabsForTimeSlot p d s))))
  \/ (View.getLabsForTimeSlot p d s <> []
      /\ View.labGroupIds (View.getLabsForTimeSlot p d s) = []
      /\ View.renderCellContent p d s
         = View.LabList (View.getLabsForTimeSlot p d s))
  \/ (s <> breakSlot /\ s <> lunchSlot
      /\ View.getLabsForTimeSlot p d s = []
      /\ View.renderCellContent p d s
         = match View.getEntry p d s with
           | None => View.Null
           | Some entry =>
               if JS.truthy (isFree entry) then
                 View.FreePeriod
                   (if JS.strictEq (freeType entry) "Others"
                       && JS.truthyStr (customFreeType entry)
                    then customFreeType entry
                    else freeType entry)
               else if JS.truthyStr (subjectName entry)
                    then View.SubjectCell entry
                    else View.Null
           end).
Proof.
  unfold View.renderCellContent.
  destruct (String.eqb_spec s breakSlot) as [-> | Hb]; [now left|].
  destruct (String.eqb_spec s lunchSlot) as [-> | Hl]; [right; now left|].
  cbv zeta. right. right.
  destruct (View.getLabsForTimeSlot p d s) as [|lab labs] eqn:E.
  - right. right. repeat split; assumption.
  - destruct (View.labGroupIds (lab :: labs)) as [|g ids] eqn:Eids.
    + right. left. repeat split. discriminate.
    + left. repeat split; discriminate.
Qed.



Example rao_view_sample :
  View.renderCellContent Sample.raoView "Monday" "10:20-11:10"
  = View.LabRotation [("g1", [Sample.labBatch1])].
Proof. reflexivity. Qed.


Lemma unique_NoDup xs : forall seen, NoDup (JS.unique seen xs).
Proof.
  induction xs as [|x xs IH]; intros seen; simpl; [constructor|].
  destruct (JS.includes seen x); [apply IH|].
  constructor; [|apply IH].
  intros H. apply unique_In in H. destruct H as [_ H]. apply H. now left.
Qed.

(** X20. In a lab rotation each group appears once, under a non-empty
    id carried by a lab spanning the slot, with exactly the entries of
    that group; so every entry shown in a rotation has a non-empty
    group id. *)
Theorem rotation_groups (p : View.Props) (d : Day) (s : TimeSlot)
    (groups : list (string * list TimetableEntry))
    (Hcell : View.renderCellContent p d s = View.LabRotation groups) :
  NoDup (map fst groups)
  /\ (forall g es,
        In (g, es) groups ->
        g <> "" /\ es = View.getLabEntries p g
        /\ exists lab, In lab (View.getLabsForTimeSlot p d s)
                       /\ labGroupId lab = Some g)
  /\ (forall e,
        In e (View.shownEntries (View.LabRotation groups)) ->
        exists g, g <> "" /\ labGroupId e = Some g).
Proof.
  assert (groups
          = map (fun groupId => (groupId, View.getLabEntries p groupId))
                (View.labGroupIds (View.getLabsForTimeSlot p d s))) as ->.
  { destruct (renderCellContent_cases p d s)
      as [[_ E] | [[_ E] | [(_ & _ & E) | [(_ & _ & E) | (_ & _ & _ & E)]]]];
      rewrite E in Hcell; try discriminate Hcell.
    - now injection Hcell.
    - destruct (View.getEntry p d s) as [entry|]; [|discriminate Hcell].
      destruct (JS.truthy (isFree entry)); [discriminate Hcell|].
      destruct (JS.truthyStr (subjectName entry)); discriminate Hcell. }
  split; [|split].
  - rewrite map_map. simpl. rewrite map_id. apply unique_NoDup.
  - intros g es Hin. apply in_map_iff in Hin.
    destruct Hin as (g' & Heq & Hg). injection Heq as -> <-.
    apply labGroupIds_In in Hg. destruct Hg as [Hne Hlab]. auto.
  - intros e He. apply rotation_shown in He. destruct He as (g & Hg & He).
    apply labGroupIds_In in Hg. apply getLabEntries_In in He.
    exists g. tauto.
Qed.

Lemma rotation_groups_witness :
  NoDup (map fst [("g1", [Sample.labBatch1; Sample.labBatch2])])
  /\ (forall g es,
        In (g, es) [("g1", [Sample.labBatch1; Sample.labBatch2])] ->
        g <> "" /\ es = View.getLabEntries Sample.labView g
        /\ exists lab,
             In lab (View.getLabsForTimeSlot Sample.labView "Monday" "10:20-11:10")
             /\ labGroupId lab = Some g)
  /\ (forall e,
        In e (View.shownEntries
                (View.LabRotation [("g1", [Sample.labBatch1; Sample.labBatch2])])) ->
        exists g, g <> "" /\ labGroupId e = Some g).
Proof.
  apply (@rotation_groups Sample.labView "Monday" "10:20-11:10").
  reflexivity.
Defined.

Lemma spansSlot_slots d s e :
  View.spansSlot d s e = true ->
  (timeSlot e = View.morningLab /\ In s View.morningSlots)
  \/ (timeSlot e = View.afternoonLab /\ In s View.afternoonSlots).
Proof.
  unfold View.spansSlot.
  rewrite !andb_true_iff, !orb_true_iff, !andb_true_iff.
  rewrite !includes_In, !String.eqb_eq. tauto.
Qed.

(** X21. When a lab spans a slot, an entry sitting at the slot itself
    and carrying no group id is not displayed in that cell. *)
Theorem spanning_lab_hides_plain_entry (p : View.Props) (d : Day)
    (s : TimeSlot) (e : TimetableEntry)
    (Hspanned : View.getLabsForTimeSlot p d s <> [])
    (Hslot : timeSlot e = s)
    (Hplain : labGroupId e = None \/ labGroupId e = Some "") :
  ~ In e (View.shownEntries (View.renderCellContent p d s)).
Proof.
  destruct (renderCellContent_cases p d s)
    as [[_ E] | [[_ E] | [(_ & _ & E) | [(_ & _ & E) | (_ & _ & H & _)]]]];
    try rewrite E.
  - intros [].
  - intros [].
  - intros He. apply rotation_shown in He. destruct He as (g & Hg & He).
    apply labGroupIds_In in Hg. apply getLabEntries_In in He.
    destruct Hg as [Hne _]. destruct He as [_ He].
    destruct Hplain as [Hp | Hp]; rewrite Hp in He; congruence.
  - simpl. intros He. unfold View.getLabsForTimeSlot in He.
    apply filter_In in He. destruct He as [_ He].
    apply spansSlot_slots in He.
    destruct He as [[Ht Hs] | [Ht Hs]];
      rewrite Hslot in Ht; rewrite Ht in Hs; simpl in Hs;
      repeat (destruct Hs as [Hs | Hs]; [discriminate Hs|]); exact Hs.
  - contradiction.
Qed.

Lemma spanning_lab_hides_plain_entry_witness :
  ~ In Sample.savedMaths
       (View.shownEntries
          (View.renderCellContent Sample.labView "Monday" "9:30-10:20")).
Proof.
  apply spanning_lab_hides_plain_entry.
  - simpl. discriminate.
  - reflexivity.
  - now left.
Defined.

(** ** The view of a timetable saved from the grid *)

Lemma shaped_slots ds l e :
  GridShaped ds l -> In e l -> In (timeSlot e) gridSlots.
Proof.
  intros (teach & brk & lun & -> & Hteach & Hbrk & Hlun) Hin.
  apply in_flat_map in Hin. destruct Hin as (d & _ & Hin).
  rewrite in_app_iff, in_map_iff in Hin. unfold gridSlots.
  apply in_app_iff.
  destruct Hin as [(s & <- & Hs) | [<- | [<- | []]]].
  - left. now destruct (Hteach d s) as [_ ->].
  - right. destruct (Hbrk d) as (_ & -> & _). now left.
  - right. destruct (Hlun d) as (_ & -> & _). right. now left.
Qed.

Lemma filter_none {A} (P : A -> bool) (l : list A) :
  (forall x, In x l -> P x = false) -> filter P l = [].
Proof.
  induction l as [|a l IH]; intros H; [reflexivity|]. simpl.
  rewrite (H a) by now left. apply IH. intros x Hx. apply H. now right.
Qed.

Lemma shaped_no_spanning_lab p ds d s :
  GridShaped ds (entries (View.timetable p)) ->
  View.getLabsForTimeSlot p d s = [].
Proof.
  intros Hshape. unfold View.getLabsForTimeSlot. apply filter_none.
  intros e He. apply viewEntries_In in He. destruct He as [He _].
  apply (@shaped_slots ds _ e Hshape) in He.
  unfold View.spansSlot.
  assert ((timeSlot e =? View.morningLab) = false
          /\ (timeSlot e =? View.afternoonLab) = false) as [-> ->].
  { unfold gridSlots in He. simpl in He.
    repeat (destruct He as [<- | He]; [split; reflexivity|]). destruct He. }
  simpl. now rewrite andb_false_r.
Qed.

(** X22. The view of a grid-shaped timetable never shows a merged lab
    block: no entry saved from the grid spans several slots, so every
    cell is a break, a lunch, a free period, a single subject or
    empty. *)
Theorem grid_timetable_has_no_lab_cell (p : View.Props) (ds : list Day)
    (d : Day) (s : TimeSlot)
    (Hshape : GridShaped ds (entries (View.timetable p))) :
  View.getLabsForTimeSlot p d s = []
  /\ (forall groups, View.renderCellContent p d s <> View.LabRotation groups)
  /\ (forall labs, View.renderCellContent p d s <> View.LabList labs).
Proof.
  pose proof (@shaped_no_spanning_lab p ds d s Hshape) as Hnone.
  split; [exact Hnone|].
  destruct (renderCellContent_cases p d s)
    as [[_ E] | [[_ E] | [(H & _) | [(H & _) | (_ & _ & _ & E)]]]];
    try contradiction; rewrite E; try (split; discriminate).
  destruct (View.getEntry p d s) as [entry|]; [|split; discriminate].
  destruct (JS.truthy (isFree entry)); [split; discriminate|].
  destruct (JS.truthyStr (subjectName entry)); split; discriminate.
Qed.

Lemma grid_timetable_has_no_lab_cell_witness :
  View.getLabsForTimeSlot
    (Sample.gridView (Grid.initialEntries Sample.props)) "Monday" "9:30-10:20"
  = []
  /\ (forall groups,
        View.renderCellContent
          (Sample.gridView (Grid.initialEntries Sample.props))
          "Monday" "9:30-10:20" <> View.LabRotation groups)
  /\ (forall labs,
        View.renderCellContent
          (Sample.gridView (Grid.initialEntries Sample.props))
          "Monday" "9:30-10:20" <> View.LabList labs).
Proof.
  apply (@grid_timetable_has_no_lab_cell
           (Sample.gridView (Grid.initialEntries Sample.props))
           ["Monday"; "Wednesday"]).
  exact (initial_shaped Sample.props).
Defined.

(** X23. A subject accepted in a teaching cell of the grid is what the
    unfiltered view of the saved entries shows in that cell: a single
    subject with the assigned name and teacher. *)
Theorem view_shows_assigned_subject (allTimetables : list Timetable)
    (p : Grid.Props) (v : View.Props) (ds : list Day)
    (l : list TimetableEntry) (d : Day) (s : TimeSlot) (value : string)
    (subj : SubjectTeacherPair)
    (Hshape : GridShaped ds l)
    (Hday : In d ds) (Hslot : In s Grid.timeSlots)
    (Hfound : find (fun s0 => id s0 =? Grid.subjectIdOf value)
                   (Grid.subjectTeacherPairs p) = Some subj)
    (Hfree : ~ BookedElsewhere allTimetables p d s (pairTeacherName subj))
    (Hnamed : pairSubjectName subj <> "")
    (Hsaved : entries (View.timetable v)
              = fst (Grid.handleCellChange allTimetables p d s value
                       Grid.subject l))
    (Hall : View.facultyFilter v = None) :
  exists shown,
    View.renderCellContent v d s = View.SubjectCell shown
    /\ day shown = d /\ timeSlot shown = s
    /\ subjectName shown = Some (pairSubjectName subj)
    /\ teacherName shown = Some (pairTeacherName subj).
Proof.
  assert (GridShaped ds (entries (View.timetable v))) as Hshape'.
  { rewrite Hsaved. now apply handleCellChange_shaped. }
  pose proof (@shaped_no_spanning_lab v ds d s Hshape') as Hnone.
  assert (View.getEntry v d s
          = option_map
              (stepEntry allTimetables p d s (Grid.SelectSubject value))
              (find (atCell d s) l)) as Hget.
  { unfold View.getEntry, View.viewEntries. rewrite Hall, Hsaved.
    apply (@find_dispatch allTimetables p d s (Grid.SelectSubject value)). }
  destruct Hshape as (teach & brk & lun & -> & Hteach & Hbrk & Hlun).
  rewrite (@find_shaped_cell teach brk lun ds d s Hteach Hbrk Hlun) in Hget.
  apply includes_In in Hday, Hslot. rewrite Hday, Hslot in Hget.
  simpl in Hget. unfold Grid.changeEntry in Hget.
  apply checkTeacherConflicts_false in Hfree.
  assert (atCell d s (teach d s) = true) as Hcell
    by (apply atCell_true; apply Hteach).
  rewrite Hcell, Hfound, Hfree in Hget. cbn [fst] in Hget.
  destruct (renderCellContent_cases v d s)
    as [[-> _] | [[-> _] | [(H & _) | [(H & _) | (_ & _ & _ & E)]]]];
    try contradiction; try discriminate Hslot.
  rewrite E, Hget. cbn.
  apply String.eqb_neq in Hnamed. rewrite Hnamed. cbn.
  eexists. split; [reflexivity|]. cbn.
  destruct (Hteach d s) as [-> ->]. auto.
Qed.

Lemma view_shows_assigned_subject_witness :
  exists shown,
    View.renderCellContent
      (Sample.gridView
         (fst (Grid.handleCellChange Sample.stored Sample.props
                 "Monday" "10:20-11:10" "s2|Iyer" Grid.subject
                 (Grid.initialEntries Sample.props))))
      "Monday" "10:20-11:10" = View.SubjectCell shown
    /\ day shown = "Monday" /\ timeSlot shown = "10:20-11:10"
    /\ subjectName shown = Some "Physics"
    /\ teacherName shown = Some "Iyer".
Proof.
  apply (@view_shows_assigned_subject Sample.stored Sample.props
           (Sample.gridView
              (fst (Grid.handleCellChange Sample.stored Sample.props
                      "Monday" "10:20-11:10" "s2|Iyer" Grid.subject
                      (Grid.initialEntries Sample.props))))
           ["Monday"; "Wednesday"] (Grid.initialEntries Sample.props)
           "Monday" "10:20-11:10" "s2|Iyer" Sample.physics).
  - exact (initial_shaped Sample.props).
  - simpl. now left.
  - simpl. right. now left.
  - reflexivity.
  - intros H. apply scanTimetables_true in H. discriminate H.
  - discriminate.
  - reflexivity.
  - reflexivity.
Defined.

(** * Further properties of the conflict check and of free periods *)

Lemma bool_eq_iff (b1 b2 : bool) : (b1 = true <-> b2 = true) -> b1 = b2.
Proof.
  destruct b1, b2; intros [H1 H2]; try reflexivity.
  - symmetry. now apply H1.
  - now apply H2.
Qed.

(** X24. The conflict check depends only on which timetables are
    stored, not on their order or on repetitions. *)
Theorem conflict_check_ignores_order (stored1 stored2 : list Timetable)
    (p : Grid.Props) (d : Day) (s : TimeSlot) (teacher : string)
    (Hsame : forall timetable, In timetable stored1 <-> In timetable stored2) :
  Grid.checkTeacherConflicts stored1 p d s teacher
  = Grid.checkTeacherConflicts stored2 p d s teacher.
Proof.
  apply bool_eq_iff. unfold Grid.checkTeacherConflicts.
  rewrite !scanTimetables_true. unfold BookedElsewhere.
  split; intros (tt & Hin & Hrest); exists tt; split; auto; now apply Hsame.
Qed.

Lemma conflict_check_ignores_order_witness :
  Grid.checkTeacherConflicts [Sample.ownClass; Sample.otherClass]
    Sample.props "Monday" "9:30-10:20" "Rao"
  = Grid.checkTeacherConflicts
      [Sample.otherClass; Sample.ownClass; Sample.otherClass]
      Sample.props "Monday" "9:30-10:20" "Rao".
Proof.
  apply conflict_check_ignores_order.
  intros timetable. simpl. tauto.
Defined.

(** X25. When every stored timetable is of the edited year and branch
    (in particular when nothing is stored), no teacher is ever reported
    as booked. *)
Theorem own_class_never_conflicts (allTimetables : list Timetable)
    (p : Grid.Props) (d : Day) (s : TimeSlot) (teacher : string)
    (Hown : forall timetable,
        In timetable allTimetables ->
        year (formData timetable) = Grid.propYear p
        /\ branch (formData timetable) = Grid.propBranch p) :
  Grid.checkTeacherConflicts allTimetables p d s teacher = false.
Proof.
  apply checkTeacherConflicts_false.
  intros (tt & Hin & Hne & _). apply Hne. now apply Hown.
Qed.

Lemma own_class_never_conflicts_witness :
  Grid.checkTeacherConflicts [Sample.ownClass] Sample.props
    "Monday" "9:30-10:20" "Rao" = false.
Proof.
  apply own_class_never_conflicts.
  simpl. intros timetable [<- | []]. split; reflexivity.
Defined.

(** X26. Every listed free hour is offered in the drop-down; after a
    free-hour value is selected in a cell whose entry is neither a
    break nor a lunch, the cell shows the free card with that value,
    except that an empty value leaves the editor in place. *)
Theorem free_cell_shows_type (allTimetables : list Timetable)
    (p : Grid.Props) (d : Day) (s : TimeSlot) (value : string)
    (l : list TimetableEntry) (entry : TimetableEntry)
    (Hentry : find (atCell d s) l = Some entry)
    (Hplain : isBreak entry <> Some true /\ isLunch entry <> Some true) :
  (forall f, In f (Grid.freeHours p) ->
             In (Grid.freeHourText f) (Grid.enabledValues (Grid.freeItems p)))
  /\ Grid.getCellContent p
       (fst (Grid.handleCellChange allTimetables p d s value Grid.free l)) d s
     = if value =? "" then Grid.Editor (Grid.subjectItems p) (Grid.freeItems p)
       else Grid.FreeCard (Some value).
Proof.
  split.
  - intros f Hf. unfold Grid.enabledValues, Grid.freeItems.
    destruct (Grid.freeHours p) as [|x xs] eqn:E; [destruct Hf|].
    apply in_map_iff.
    exists {| Grid.itemValue := Grid.freeHourText f;
              Grid.itemLabel := Grid.freeHourText f;
              Grid.itemDisabled := false |}.
    split; [reflexivity|]. apply filter_In. split; [|reflexivity].
    apply in_map_iff. exists f. now split.
  - change (fst (Grid.handleCellChange allTimetables p d s value Grid.free l))
      with (Grid.dispatch allTimetables p d s (Grid.SelectFree value) l).
    unfold Grid.getCellContent. rewrite find_dispatch, Hentry. simpl.
    apply find_some in Hentry. destruct Hentry as [_ Hcell].
    unfold Grid.changeEntry. rewrite Hcell. simpl.
    destruct Hplain as [Hb Hl].
    assert (JS.truthy (isBreak entry) = false) as ->.
    { destruct (JS.truthy (isBreak entry)) eqn:E; [|reflexivity].
      apply truthy_true in E. contradiction. }
    assert (JS.truthy (isLunch entry) = false) as ->.
    { destruct (JS.truthy (isLunch entry)) eqn:E; [|reflexivity].
      apply truthy_true in E. contradiction. }
    now destruct (value =? "").
Qed.

Lemma free_cell_shows_type_witness :
  (forall f, In f (Grid.freeHours Sample.props) ->
             In (Grid.freeHourText f)
                (Grid.enabledValues (Grid.freeItems Sample.props)))
  /\ Grid.getCellContent Sample.props
       (fst (Grid.handleCellChange Sample.stored Sample.props
               "Monday" "10:20-11:10" "Library" Grid.free
               (Grid.initialEntries Sample.props)))
       "Monday" "10:20-11:10"
     = Grid.FreeCard (Some "Library").
Proof.
  apply (@free_cell_shows_type Sample.stored Sample.props
           "Monday" "10:20-11:10" "Library"
           (Grid.initialEntries Sample.props)
           (bareEntry "Monday" "10:20-11:10")).
  - reflexivity.
  - split; discriminate.
Defined.
